(** * smolbench: a shallow embedding of the benchmark harness

    The development follows the two TypeScript sources of the repository.
    The larger one defines [round], [run1], [benchFancy], [bench],
    [saveReportsSync] and [reportTable]; [src/index.ts] holds the same
    [round] and [saveReportsSync] and an older, self-contained [bench],
    embedded here under [Module IndexTs].

    Modelling choices, in the order of the file:
    - a JavaScript number is an IEEE 754 binary64 value, that is Rocq's
      primitive [float]; the [Math] functions the code calls are defined on
      it from the ECMAScript text;
    - JavaScript values that reach the report file are a small inductive
      type [value]; objects are finite maps from property names to values
      (enumeration order is not modelled, and property names are ordinary
      keys: the inherited accessor [__proto__] is outside the model);
    - effects are explicit: a computation is a function from a [World]
      (clock, report registry, disk, the workload's own heap) to an
      [outcome] and a new world;
    - the two loops of the engine take fuel, since a workload that never
      accumulates the warm-up budget makes the source loop forever;
    - [console.warn] and [console.error] lines are not modelled (their
      arguments are pure), and the table given to [console.table] is the
      result of [reportTable]. *)

From Stdlib Require Import Floats ZArith Uint63 Bool.
From stdpp Require Import gmap strings list fin_maps pretty.

Set Warnings "-register-all,-inexact-float".

Open Scope float_scope.

(** ** Numbers *)

Abbreviation number := float.

(** A non-negative integer below [2^63] as a number; exact below [2^53].
    The engine's counters ([warmupCount], [i]) are kept as [nat] and
    converted where the source mixes them with other numbers. *)
Definition of_nat (n : nat) : number :=
  PrimFloat.of_uint63 (Uint63.of_Z (Z.of_nat n)).

Definition of_Z (z : Z) : number :=
  PrimFloat.of_uint63 (Uint63.of_Z z).

Arguments of_nat : simpl never.
Arguments of_Z : simpl never.

Module Math.

(** [Math.floor]: NaN, the infinities, the zeros and integral numbers are
    returned unchanged; otherwise the number is [(-1)^s * m * 2^e] with
    [e < 0] and the quotient is taken on integers. *)
Definition floor (x : number) : number :=
  match Prim2SF x with
  | S754_finite s m e =>
      if (0 <=? e)%Z then x
      else
        let d := (2 ^ (- e))%Z in
        if (Z.pos m mod d =? 0)%Z then x
        else if s then - of_Z ((Z.pos m + d - 1) / d)
        else of_Z (Z.pos m / d)
  | _ => x
  end.

(** [Math.round]: the closest integral number, ties towards +infinity;
    a result of zero keeps the sign of the argument. *)
Definition round (x : number) : number :=
  match Prim2SF x with
  | S754_finite s m e =>
      if (0 <=? e)%Z then x
      else
        let d := (2 ^ (- e))%Z in
        if (Z.pos m mod d =? 0)%Z then x
        else if s then - of_Z (- ((d / 2 - Z.pos m) / d))
        else of_Z ((Z.pos m + d / 2) / d)
  | _ => x
  end.

(** [Math.max] of two numbers: NaN if either is NaN, and [+0] is larger
    than [-0]. *)
Definition max (a b : number) : number :=
  if PrimFloat.is_nan a || PrimFloat.is_nan b then nan
  else if PrimFloat.is_zero a && PrimFloat.is_zero b
       then (if PrimFloat.get_sign a then b else a)
  else if a <? b then b else a.

(** [Math.pow(10, digits)] for the small non-negative integer exponents
    the code uses: the power is an integer below [2^53] and is returned
    exactly. *)
Definition pow10 (digits : nat) : number := of_Z (10 ^ Z.of_nat digits).

End Math.

(** ** The rounder (lines 37-47 of both sources) *)

Definition roundDigits (n : number) (digits : nat) : number :=
  let m := Math.pow10 digits in
  Math.round (n * m) / m.

Definition round (n : number) : number :=
  if n <? 1 then roundDigits n 3
  else if n <? 10 then roundDigits n 2
  else if n <? 100 then roundDigits n 1
  else Math.round n.

(** ** Values *)

(** The JavaScript values that can sit in the report registry or come out
    of [JSON.parse]. *)
Inductive value : Type :=
| VUndefined
| VNull
| VBool (b : bool)
| VNum (x : number)
| VStr (s : string)
| VArr (items : list value)
| VObj (props : gmap string value).

(** [typeof v !== 'object' || v == null], the shape test of both readers. *)
Definition not_an_object (v : value) : bool :=
  match v with
  | VObj _ | VArr _ => false
  | _ => true
  end.

(** The own enumerable properties that object spread [{...v}] copies: the
    properties of an object, the indices of an array, the code units of a
    string, nothing for the other primitives. *)
Definition indexed {A} (f : A → value) (l : list A) : gmap string value :=
  list_to_map (imap (λ i x, (pretty i, f x)) l).

Definition own_props (v : value) : gmap string value :=
  match v with
  | VObj props => props
  | VArr items => indexed id items
  | VStr s => indexed (λ c, VStr (String c EmptyString)) (String.list_ascii_of_string s)
  | _ => ∅
  end.

(** [{...a, ...b}]: the properties of [b] override those of [a]. *)
Definition spread (a b : gmap string value) : gmap string value := b ∪ a.

(** Property read [v.key]: [None] where JavaScript throws a [TypeError]
    (the base is [null] or [undefined]), [VUndefined] where the property is
    missing. None of the keys read here is a built-in property of arrays,
    strings, numbers or booleans. *)
Definition get_prop (v : value) (key : string) : option value :=
  match v with
  | VUndefined | VNull => None
  | VObj props => Some (default VUndefined (props !! key))
  | _ => Some VUndefined
  end.

(** [ToNumber], for the values whose conversion does not go through a
    string: the conversion of a string, of an array and of an object
    (which are first turned into strings, and may throw on the way) is
    outside the model and answers [None]. *)
Definition ToNumber (v : value) : option number :=
  match v with
  | VUndefined => Some nan
  | VNull => Some 0
  | VBool b => Some (if b then 1 else 0)
  | VNum x => Some x
  | VStr _ | VArr _ | VObj _ => None
  end.

(** What [JSON.parse] reads back from the text [JSON.stringify] writes:
    non-finite numbers become [null], [-0] becomes [0], an [undefined]
    property is dropped and an [undefined] array item becomes [null]. *)
Fixpoint json_roundtrip (v : value) : value :=
  match v with
  | VUndefined => VNull
  | VNum x =>
      if PrimFloat.is_nan x || PrimFloat.is_infinity x then VNull
      else if PrimFloat.is_zero x then VNum 0
      else VNum x
  | VArr items => VArr (map json_roundtrip items)
  | VObj props =>
      VObj (omap (λ p, match p with
                       | VUndefined => None
                       | _ => Some (json_roundtrip p)
                       end) props)
  | _ => v
  end.

(** ** Options and reports (lines 4-35) *)

Module BenchOpts.
Record t : Type := mk {
  warmupTime : number;
  testTime : number;
  samples : number;
  name : option string;
  quiet : bool;
}.

(** An options object as a caller may pass it: any field may be missing. *)
Record partial : Type := mkPartial {
  p_warmupTime : option number;
  p_testTime : option number;
  p_samples : option number;
  p_name : option string;
  p_quiet : option bool;
}.

(** [{...d, ...o}]. *)
Definition overlay (d : t) (o : partial) : t :=
  {| warmupTime := default (warmupTime d) (p_warmupTime o);
     testTime := default (testTime d) (p_testTime o);
     samples := default (samples d) (p_samples o);
     name := match p_name o with Some n => Some n | None => name d end;
     quiet := default (quiet d) (p_quiet o) |}.

Definition to_value (o : t) : value :=
  VObj (<["warmupTime" := VNum (warmupTime o)]>
        (<["testTime" := VNum (testTime o)]>
        (<["samples" := VNum (samples o)]>
        (<["quiet" := VBool (quiet o)]>
        (match name o with
         | Some n => {["name" := VStr n]}
         | None => ∅
         end))))).
End BenchOpts.

Definition defaultOpts : BenchOpts.t :=
  {| BenchOpts.warmupTime := 3000;
     BenchOpts.testTime := 10000;
     BenchOpts.samples := 100;
     BenchOpts.name := None;
     BenchOpts.quiet := false |}.

Module BenchmarkReport.
Record t : Type := mk {
  meanTime : number;
  options : BenchOpts.t;
  sampleTimes : list number;
}.

Definition to_value (r : t) : value :=
  VObj (<["sampleTimes" := VArr (VNum <$> sampleTimes r)]>
        (<["meanTime" := VNum (meanTime r)]>
        {["options" := BenchOpts.to_value (options r)]})).
End BenchmarkReport.

(** The first argument of [bench] and [benchFancy]: [null] or [undefined],
    a name, or an options object. *)
Inductive OptionsArg : Type :=
| NoOptions
| Named (name : string)
| Options (o : BenchOpts.partial).

Definition resolve (options : OptionsArg) : BenchOpts.t :=
  match options with
  | NoOptions => defaultOpts
  | Named n =>
      BenchOpts.overlay defaultOpts
        (BenchOpts.mkPartial None None None (Some n) None)
  | Options o => BenchOpts.overlay defaultOpts o
  end.

(** ** Effects *)

Inductive exn : Type :=
| Error (message : string)   (* [Error(message)], which has no [code] *)
| TypeError
| SyntaxError
| SystemError (code : string). (* a failed file-system call: [e.code] *)

Definition code (e : exn) : option string :=
  match e with
  | SystemError c => Some c
  | _ => None
  end.

(** How a computation ends: with a result, with a thrown exception, or
    with no answer from the model, because a loop ran out of the fuel it
    was given, because code of the workload does not end, or because a
    step is outside the model. *)
Inductive outcome (A : Type) : Type :=
| Ok (a : A)
| Throw (e : exn)
| NoAnswer.
Arguments Ok {A} a.
Arguments Throw {A} e.
Arguments NoAnswer {A}.

(** A text, as [JSON.parse] sees it, and what a path of the disk holds, as
    [fs.readFileSync] sees it. A path that is not in the disk does not
    exist. *)
Inductive Text : Type :=
| NotJson (text : string)  (* [JSON.parse] rejects it *)
| Json (doc : value).      (* [JSON.parse] reads it as [doc] *)

Inductive File : Type :=
| Unreadable (code : string)  (* reading fails with this system error *)
| Readable (content : Text).

(** [JSON.stringify(v, null, 2)]; the indentation does not survive the
    identification of a JSON text with the value it denotes. *)
Definition JSON_stringify (v : value) : Text := Json (json_roundtrip v).

(** The number of samples, from the resolved options and the estimate of
    the warm-up (line 95, and line 72 of [src/index.ts]). *)
Definition sampleCount (opts : BenchOpts.t) (timePerIteration : number) : number :=
  Math.max (BenchOpts.samples opts)
           (Math.floor (BenchOpts.testTime opts / timePerIteration)).

Section Trials.

(** [U] is the state the workload keeps between and during trials, [R]
    the type of the reports in the registry. *)
Context {U R : Type}.

Record World : Type := mkWorld {
  clock : nat → number;  (* the readings of [performance.now()], in order *)
  ticks : nat;           (* how many readings were taken *)
  reports : gmap string R;
  disk : gmap string File;
  heap : U;
}.

Definition M (A : Type) : Type := World → outcome A * World.

Definition ret {A} (a : A) : M A := λ w, (Ok a, w).
Definition throw {A} (e : exn) : M A := λ w, (Throw e, w).
Definition no_answer {A} : M A := λ w, (NoAnswer, w).
Definition bind {A B} (m : M A) (k : A → M B) : M B :=
  λ w, match m w with
       | (Ok a, w') => k a w'
       | (Throw e, w') => (Throw e, w')
       | (NoAnswer, w') => (NoAnswer, w')
       end.
(** [try { m } catch (e) { h e }]. *)
Definition try_catch {A} (m : M A) (h : exn → M A) : M A :=
  λ w, match m w with
       | (Throw e, w') => h e w'
       | r => r
       end.

(** The code of a workload runs on its own heap. This is the cooperative
    use the harness is designed for: a workload does not write the report
    registry or the report file of the run that measures it. *)
Definition Code (A : Type) : Type := U → outcome A * U.

Definition lift {A} (c : Code A) : M A :=
  λ w, let (r, u) := c (heap w) in
       (r, mkWorld (clock w) (ticks w) (reports w) (disk w) u).

(** [performance.now()]. *)
Definition now : M number :=
  λ w, (Ok (clock w (ticks w)),
        mkWorld (clock w) (S (ticks w)) (reports w) (disk w) (heap w)).

(** [reports[name] = r], and reading the registry. *)
Definition set_report (name : string) (r : R) : M unit :=
  λ w, (Ok tt,
        mkWorld (clock w) (ticks w) (<[name := r]> (reports w)) (disk w) (heap w)).

Definition get_reports : M (gmap string R) := λ w, (Ok (reports w), w).

(** [fs.readFileSync(path, 'utf8')], [JSON.parse(text)] and
    [fs.writeFileSync(path, text)]; a write succeeds. *)
Definition readFileSync (path : string) : M Text :=
  λ w, match disk w !! path with
       | None => (Throw (SystemError "ENOENT"), w)
       | Some (Unreadable c) => (Throw (SystemError c), w)
       | Some (Readable text) => (Ok text, w)
       end.

Definition JSON_parse (text : Text) : M value :=
  match text with
  | NotJson _ => throw SyntaxError
  | Json doc => ret doc
  end.

Definition writeFileSync (path : string) (text : Text) : M unit :=
  λ w, (Ok tt,
        mkWorld (clock w) (ticks w) (reports w)
                (<[path := Readable text]> (disk w)) (heap w)).

End Trials.

Arguments World : clear implicits.
Arguments M : clear implicits.
Arguments Code : clear implicits.

Notation "'let*' x ':=' m 'in' k" := (bind m (λ x, k))
  (at level 10, x pattern, m at level 100, k at level 200, only parsing).

Section Runner.

Context {U R : Type}.

(** ** Workloads *)

(** A fancy workload [fn : FancyFn], seen from the callback it receives:
    it returns, or runs some code of its own and goes on according to the
    result, or calls the callback on a function [f] and goes on. Code that
    throws, or that does not end, ends the workload: a workload that
    catches the exception of the function it has measured, or that keeps
    the callback of a trial for a later one, is not represented. *)
Inductive FancyFn : Type :=
| Return
| Run {A : Type} (c : Code U A) (k : A → FancyFn)
| Measure (f : Code U unit) (k : FancyFn).

(** ** The single-trial runner (lines 50-61) *)

(** The local variables of [run1], which the callback assigns. *)
Record Locals : Type := mkLocals {
  start : number;
  end_ : number;
  run : bool;
}.

(** [fn(callback)], threading the locals the callback closes over. *)
Fixpoint call (fn : FancyFn) (l : Locals) : M U R Locals :=
  match fn with
  | Return => ret l
  | Run c k => let* a := lift c in call (k a) l
  | Measure f k =>
      let* s := now in
      let* _ := lift f in
      let* e := now in
      call k (mkLocals s e true)
  end.

Definition run1 (fn : FancyFn) : M U R number :=
  let* l := call fn (mkLocals 0 0 false) in
  if run l then ret (end_ l - start l)
  else throw (Error "Benchmark must run iteration function").

(** ** The two loops of the engine (lines 80-107) *)

(** The warm-up [do ... while] loop, entered with the counters of the
    trials already run. *)
Fixpoint warmup (fuel : nat) (opts : BenchOpts.t) (fn : FancyFn)
    (warmupCount : nat) (warmupTime : number) : M U R (nat * number) :=
  match fuel with
  | O => no_answer
  | S fuel =>
      let* t := run1 fn in
      let warmupTime := warmupTime + t in
      let warmupCount := S warmupCount in
      if (warmupCount <? 4)%nat || (warmupTime <? BenchOpts.warmupTime opts)
      then warmup fuel opts fn warmupCount warmupTime
      else ret (warmupCount, warmupTime)
  end.

(** The sampling [for] loop, entered at index [i]. *)
Fixpoint sampling (fuel : nat) (fn : FancyFn) (samples : number)
    (i : nat) (totalTime : number) (sampleTimes : list number)
    : M U R (number * list number) :=
  if of_nat i <? samples then
    match fuel with
    | O => no_answer
    | S fuel =>
        let* time := run1 fn in
        sampling fuel fn samples (S i) (totalTime + time) (sampleTimes ++ [time])
    end
  else ret (totalTime, sampleTimes).

End Runner.

Arguments FancyFn : clear implicits.

Section Engine.

Context {U : Type}.

Local Abbreviation M' := (M U BenchmarkReport.t).

(** ** The engine (lines 70-124) *)

Definition benchFancy (fuel : nat) (options : OptionsArg) (fn : FancyFn U) : M' unit :=
  let opts := resolve options in
  let* (warmupCount, warmupTime) := warmup fuel opts fn 0 0 in
  let timePerIteration := warmupTime / of_nat warmupCount in
  let samples := sampleCount opts timePerIteration in
  let* (totalTime, sampleTimes) := sampling fuel fn samples 0 0 [] in
  let timePerIteration := totalTime / samples in
  match BenchOpts.name opts with
  | Some name =>
      set_report name
        (BenchmarkReport.mk timePerIteration opts sampleTimes)
  | None => ret tt
  end.

(** [b => { b(fn) }] *)
Definition plain (fn : Code U unit) : FancyFn U := Measure fn Return.

Definition bench (fuel : nat) (options : OptionsArg) (fn : Code U unit) : M' unit :=
  benchFancy fuel options (plain fn).

(** ** Persistence (lines 127-146) *)

Definition saveReportsSync (filename : option string) : M' unit :=
  let filename := default "report.json" filename in
  let* currentReports :=
    try_catch
      (let* text := readFileSync filename in
       let* currentReports := JSON_parse text in
       if not_an_object currentReports
       then throw (Error "Report file is not an object")
       else ret currentReports)
      (λ e, if bool_decide (code e ≠ Some "ENOENT") then throw e
            else ret (VObj ∅)) in
  let* reports := get_reports in
  let merged :=
    spread (own_props currentReports) (BenchmarkReport.to_value <$> reports) in
  writeFileSync filename (JSON_stringify (VObj merged)).

(** ** The table (lines 149-166) *)

(** [round(v.meanTime)] for an entry [v] of the merged object: a
    [TypeError] where the entry is [null], no answer where the conversion
    of [v.meanTime] to a number is outside the model. *)
Definition mean (v : value) : M' number :=
  match get_prop v "meanTime" with
  | None => throw TypeError
  | Some p =>
      match ToNumber p with
      | Some n => ret (round n)
      | None => no_answer
      end
  end.

(** The [for ... in] loop that fills [tableData]; a row [{mean: x}] is
    kept as the number [x]. *)
Definition rows (r : gmap string value) : M' (gmap string number) :=
  map_fold (λ name v (acc : M' (gmap string number)),
              let* tableData := acc in
              let* cell := mean v in
              ret (<[name := cell]> tableData))
           (ret ∅) r.

Definition reportTable (filename : option string) : M' (gmap string number) :=
  let* reports := get_reports in
  let r := spread ∅ (BenchmarkReport.to_value <$> reports) in
  let* r :=
    match filename with
    | Some filename =>
        let* text := readFileSync filename in
        let* fileReports := JSON_parse text in
        if not_an_object fileReports
        then throw (Error "Report file is not an object")
        else ret (spread r (own_props fileReports))
    | None => ret r
    end in
  rows r.

End Engine.

(** ** The plain engine of [src/index.ts] (lines 49-90)

    [src/index.ts] has the same options, defaults, [round] and
    [saveReportsSync]; its [bench] times the workload itself, around the
    whole loops, and its reports have no [sampleTimes]. *)
Module IndexTs.

Record BenchmarkReport : Type := mkReport {
  meanTime : number;
  options : BenchOpts.t;
}.

Section Plain.

Context {U : Type}.

Local Abbreviation M' := (M U BenchmarkReport).

(** The warm-up [do ... while] loop (lines 61-65). *)
Fixpoint warmup (fuel : nat) (opts : BenchOpts.t) (fn : Code U unit)
    (start : number) (warmupCount : nat) : M' (nat * number) :=
  match fuel with
  | O => no_answer
  | S fuel =>
      let* _ := lift fn in
      let warmupCount := S warmupCount in
      let* end_ := now in
      if end_ - start <? BenchOpts.warmupTime opts
      then warmup fuel opts fn start warmupCount
      else ret (warmupCount, end_)
  end.

(** The sampling [for] loop (lines 77-79). *)
Fixpoint sampling (fuel : nat) (fn : Code U unit) (samples : number)
    (i : nat) : M' unit :=
  if of_nat i <? samples then
    match fuel with
    | O => no_answer
    | S fuel => let* _ := lift fn in sampling fuel fn samples (S i)
    end
  else ret tt.

Definition bench (fuel : nat) (options : OptionsArg) (fn : Code U unit) : M' unit :=
  let opts := resolve options in
  let* start := now in
  let* (warmupCount, end_) := warmup fuel opts fn start 0 in
  let timePerIteration := (end_ - start) / of_nat warmupCount in
  let samples := sampleCount opts timePerIteration in
  let* start := now in
  let* _ := sampling fuel fn samples 0 in
  let* end_ := now in
  let timePerIteration := (end_ - start) / samples in
  match BenchOpts.name opts with
  | Some name => set_report name (mkReport timePerIteration opts)
  | None => ret tt
  end.

End Plain.

End IndexTs.

(** ** Definitions used to state the properties *)

(** The exception of a workload that returns without calling the callback. *)
Definition ProtocolViolation : exn := Error "Benchmark must run iteration function".

Section Traces.

Context {U R : Type}.

(** [n] trials in a row, with their elapsed times in order. *)
Fixpoint trials (n : nat) (fn : FancyFn U) : M U R (list number) :=
  match n with
  | O => ret []
  | S n =>
      let* t := run1 fn in
      let* ts := trials n fn in
      ret (t :: ts)
  end.

(** The workload, started on heap [u], returns without calling the
    callback. *)
Fixpoint returns_unmeasured (fn : FancyFn U) (u : U) : Prop :=
  match fn with
  | Return => True
  | Run c k =>
      match c u with
      | (Ok a, u') => returns_unmeasured (k a) u'
      | _ => False
      end
  | Measure _ _ => False
  end.


(** A world differs from an earlier one by clock readings taken and by
    what the workload did on its heap only. *)
Definition same_stores (w w' : World U R) : Prop :=
  clock w' = clock w ∧ reports w' = reports w ∧ disk w' = disk w.

(** What the two readers of the report file do with it, up to and with
    the shape test (lines 131-135 and 153-156). *)
Definition read_object (path : string) : M U R value :=
  let* text := readFileSync path in
  let* v := JSON_parse text in
  if not_an_object v then throw (Error "Report file is not an object")
  else ret v.

End Traces.

(** The number a row of the table shows for an entry, where [mean] has
    one. *)
Definition shown (v : value) : option number :=
  p ← get_prop v "meanTime"; round <$> ToNumber p.

(** The sum the sampling loop accumulates: from [0], left to right. *)
Definition total (times : list number) : number := fold_left PrimFloat.add times 0.

(** The number [2^53], below which every natural number is a [number]. *)
Definition max_safe : Z := 2 ^ 53.

(** [n] calls of a workload in a row, on its heap. *)
Fixpoint runs {U} (fn : Code U unit) (n : nat) (u : U) : outcome unit * U :=
  match n with
  | O => (Ok tt, u)
  | S n =>
      match fn u with
      | (Ok _, u') => runs fn n u'
      | r => r
      end
  end.


(** A number that [JSON.stringify] writes and [JSON.parse] reads back as
    it is: a finite number other than [-0]. *)
Definition json_number (x : number) : bool :=
  negb (PrimFloat.is_nan x || PrimFloat.is_infinity x)
  && negb (PrimFloat.is_zero x && PrimFloat.get_sign x).

(** A report whose numbers are all of that kind. *)
Definition json_report (r : BenchmarkReport.t) : bool :=
  json_number (BenchmarkReport.meanTime r)
  && forallb json_number (BenchmarkReport.sampleTimes r)
  && json_number (BenchOpts.warmupTime (BenchmarkReport.options r))
  && json_number (BenchOpts.testTime (BenchmarkReport.options r))
  && json_number (BenchOpts.samples (BenchmarkReport.options r)).

(** The mean time that the table shows for a report read back from the
    report file: a mean time that is not finite was written as [null]. *)
Definition saved_mean (r : BenchmarkReport.t) : number :=
  let m := BenchmarkReport.meanTime r in
  if PrimFloat.is_nan m || PrimFloat.is_infinity m || PrimFloat.is_zero m then 0
  else round m.

(** The size of a value, to reason by induction on the values inside
    arrays and objects. *)
Fixpoint value_size (v : value) : nat :=
  match v with
  | VArr items => S (foldr (λ x n, value_size x + n)%nat 0%nat items)
  | VObj props => S (map_fold (λ _ x n, value_size x + n)%nat 0%nat props)
  | _ => 1
  end.

(** ** Example inputs *)

Module Examples.

(** A clock that advances by one millisecond between two readings, a
    clock too coarse to see the workload, and a clock that reads 0, 10,
    20, 21 and then stays. *)
Definition ticking : nat → number := of_nat.
Definition frozen : nat → number := λ _, 0.

(** A world with an empty registry and an empty disk; the heap of the
    example workloads is a counter. *)
Definition idle (clock : nat → number) : World nat BenchmarkReport.t :=
  mkWorld clock 0 ∅ ∅ 0%nat.

(** A workload body that counts its runs. *)
Definition noop : Code nat unit := λ u, (Ok tt, S u).

Definition flaky : FancyFn nat :=
  Run (λ u, (Ok u, S u))
      (λ n, if (n <? 5)%nat then Measure (λ u, (Ok tt, u)) Return else Return).

(** [{warmupTime: 0, testTime: 3, samples: 2, name: 'A'}] *)
Definition quick : OptionsArg :=
  Options (BenchOpts.mkPartial (Some 0) (Some 3) (Some 2) (Some "A"%string) None).

(** A registry with a report of mean time 1 under the name [A], next to a
    report file that holds an older report of mean time 2 under that name
    and a report of mean time 5.5555 under the name [B]. *)
Definition fresh : BenchmarkReport.t :=
  BenchmarkReport.mk 1 (resolve (Named "A")) [1; 1].

Definition older : BenchmarkReport.t :=
  BenchmarkReport.mk 2 (resolve (Named "A")) [3; 1].

Definition other : BenchmarkReport.t :=
  BenchmarkReport.mk 5.5555 (resolve (Named "B")) [5.5555].

Definition old_entries : gmap string value :=
  {[ "A"%string := BenchmarkReport.to_value older;
     "B"%string := BenchmarkReport.to_value other ]}.

Definition stale : World nat BenchmarkReport.t :=
  mkWorld ticking 0
    {[ "A"%string := fresh ]}
    {[ "report.json"%string := Readable (Json (VObj old_entries)) ]}
    0%nat.

(** An empty registry next to a report file that holds [[]], next to one
    that holds an object with the number 5 under [A], and next to one
    that holds a string. *)
Definition array_file : World nat BenchmarkReport.t :=
  mkWorld ticking 0 ∅
    {[ "report.json"%string := Readable (Json (VArr [])) ]} 0%nat.



(** A registry with the report [fresh] and no report file. *)
Definition unsaved : World nat BenchmarkReport.t :=
  mkWorld ticking 0 {[ "A"%string := fresh ]} ∅ 0%nat.

(** A workload body that throws at its sixth run. *)
Definition failing : Code nat unit :=
  λ u, if (u <? 5)%nat then (Ok tt, S u) else (Throw (Error "out of input"), u).

(** [{warmupTime: 0, testTime: 0, samples: 0, name: 'N'}], and the report
    of a run under these options, which takes no sample: its mean time is
    NaN. A registry with that report and no report file. *)
Definition no_samples : OptionsArg :=
  Options (BenchOpts.mkPartial (Some 0) (Some 0) (Some 0) (Some "N"%string) None).

Definition hollow : BenchmarkReport.t :=
  BenchmarkReport.mk nan (resolve no_samples) [].

Definition unmeasured : World nat BenchmarkReport.t :=
  mkWorld ticking 0 {[ "N"%string := hollow ]} ∅ 0%nat.



End Examples.

(** * Properties *)

(** ** Numbers *)

Section NumberFacts.












End NumberFacts.

Section IntegerNumbers.
Local Open Scope Z_scope.

(** The natural numbers below [2^53] are numbers: [of_nat] is
    [binary_normalize] there, which shifts the digits to the left of the
    mantissa and rounds nothing. *)

Lemma digits2_size p : digits2_pos p = Pos.size p.
Proof. induction p; cbn; congruence. Qed.

Lemma digits2_bounds p :
  2 ^ (Z.pos (digits2_pos p) - 1) ≤ Z.pos p < 2 ^ Z.pos (digits2_pos p).
Proof.
  rewrite digits2_size. split.
  - pose proof (Pos.size_le p) as H.
    apply Pos2Z.pos_le_pos in H. rewrite Pos2Z.inj_pow in H.
    replace (Z.pos (Pos.size p)) with (Z.succ (Z.pos (Pos.size p) - 1)) in H by lia.
    rewrite Z.pow_succ_r in H by lia. lia.
  - pose proof (Pos.size_gt p) as H.
    apply Pos2Z.pos_lt_pos in H. by rewrite Pos2Z.inj_pow in H.
Qed.

Lemma digits2_iter_xO p n :
  digits2_pos (Pos.iter xO p n) = (digits2_pos p + n)%positive.
Proof.
  induction n using Pos.peano_ind.
  - cbn. lia.
  - rewrite Pos.iter_succ. cbn. rewrite IHn. lia.
Qed.

Lemma iter_xO_value p n : Z.pos (Pos.iter xO p n) = Z.pos p * 2 ^ Z.pos n.
Proof.
  induction n using Pos.peano_ind.
  - cbn. lia.
  - rewrite Pos.iter_succ, Pos2Z.inj_succ, Z.pow_succ_r by lia.
    rewrite Pos2Z.inj_xO, IHn. lia.
Qed.

(** A mantissa of 53 digits with an exponent in range is already rounded. *)
Lemma binary_round_aux_exact s m e :
  Z.pos (digits2_pos m) = 53 → -1074 ≤ e ≤ 971 →
  binary_round_aux prec emax s (Z.pos m) e loc_Exact = S754_finite s m e.
Proof.
  intros Hd He. unfold binary_round_aux, shr_fexp, fexp, emin, Zdigits2.
  cbn [shr_record_of_loc]. rewrite Hd.
  change prec with 53. change emax with 1024.
  replace (Z.max (53 + e - 53) (3 - 1024 - 53) - e) with 0 by lia.
  cbn [shr shr_m loc_of_shr_record round_nearest_even shr_record_of_loc Zdigits2].
  rewrite Hd.
  replace (Z.max (53 + e - 53) (3 - 1024 - 53) - e) with 0 by lia.
  cbn [shr shr_m].
  replace (e <=? 1024 - 53) with true by (symmetry; apply Z.leb_le; lia).
  reflexivity.
Qed.

(** The number of a positive integer below [2^53]: its digits, shifted to
    the left to fill the mantissa. *)
Lemma binary_normalize_int p :
  Z.pos p < 2 ^ 53 →
  ∃ m e, binary_normalize prec emax (Z.pos p) 0 false = S754_finite false m e
         ∧ e = Z.pos (digits2_pos p) - 53 ∧ e ≤ 0
         ∧ Z.pos m = Z.pos p * 2 ^ (- e).
Proof.
  intros Hp. pose proof (digits2_bounds p) as [Hlo Hhi].
  assert (Z.pos (digits2_pos p) ≤ 53) as Hd.
  { destruct (Z.le_gt_cases (Z.pos (digits2_pos p)) 53) as [|Hgt]; [done|].
    assert (2 ^ 53 ≤ 2 ^ (Z.pos (digits2_pos p) - 1)); [|lia].
    apply Z.pow_le_mono_r; lia. }
  unfold binary_normalize, binary_round, shl_align, fexp, emin.
  change prec with 53. change emax with 1024.
  replace (Z.max (Z.pos (digits2_pos p) + 0 - 53) (3 - 1024 - 53) - 0)
    with (Z.pos (digits2_pos p) - 53) by lia.
  replace (Z.max (Z.pos (digits2_pos p) + 0 - 53) (3 - 1024 - 53))
    with (Z.pos (digits2_pos p) - 53) by lia.
  destruct (Z.pos (digits2_pos p) - 53) as [|q|q] eqn:Hq; [|lia|].
  - exists p, 0. rewrite binary_round_aux_exact by lia.
    repeat split; lia.
  - exists (Pos.iter xO p q), (Z.neg q).
    rewrite binary_round_aux_exact; [|rewrite digits2_iter_xO; lia|lia].
    repeat split; [lia|]. rewrite iter_xO_value. done.
Qed.

Lemma normalize_ltb a b :
  0 ≤ a < 2 ^ 53 → 0 ≤ b < 2 ^ 53 →
  SFltb (binary_normalize prec emax a 0 false)
        (binary_normalize prec emax b 0 false) = (a <? b).
Proof.
  intros Ha Hb. destruct a as [|p|p], b as [|q|q]; try lia.
  - done.
  - destruct (binary_normalize_int q) as (m & e & -> & _); [lia|done].
  - destruct (binary_normalize_int p) as (m & e & -> & _); [lia|done].
  - destruct (binary_normalize_int p) as (m1 & e1 & -> & He1 & He1' & Hm1); [lia|].
    destruct (binary_normalize_int q) as (m2 & e2 & -> & He2 & He2' & Hm2); [lia|].
    pose proof (digits2_bounds p) as [Hp1 Hp2].
    pose proof (digits2_bounds q) as [Hq1 Hq2].
    unfold SFltb, SFcompare.
    destruct (Z.compare_spec e1 e2) as [Heq|Hlt|Hgt].
    + change (Pos.compare_cont Eq m1 m2) with (Z.pos m1 ?= Z.pos m2).
      rewrite Hm1, Hm2, Heq.
      assert (0 < 2 ^ (- e2)) as Hpow by (apply Z.pow_pos_nonneg; lia).
      destruct (Z.compare_spec (Z.pos p * 2 ^ (- e2)) (Z.pos q * 2 ^ (- e2)));
        symmetry; [apply Z.ltb_ge|apply Z.ltb_lt|apply Z.ltb_ge]; nia.
    + symmetry. apply Z.ltb_lt.
      assert (2 ^ Z.pos (digits2_pos p) ≤ 2 ^ (Z.pos (digits2_pos q) - 1));
        [apply Z.pow_le_mono_r; lia|lia].
    + symmetry. apply Z.ltb_ge.
      assert (2 ^ Z.pos (digits2_pos q) ≤ 2 ^ (Z.pos (digits2_pos p) - 1));
        [apply Z.pow_le_mono_r; lia|lia].
Qed.

Lemma Prim2SF_of_Z q :
  0 ≤ q < 2 ^ 53 →
  Prim2SF (of_Z q) = binary_normalize prec emax q 0 false.
Proof.
  intros Hq. unfold of_Z. rewrite of_uint63_spec, Uint63.of_Z_spec.
  rewrite Z.mod_small; [done|].
  change wB with (2 ^ 63). assert (2 ^ 53 < 2 ^ 63) by done. lia.
Qed.

(** A number that stands for an integer below [2^53] in absolute value is
    its own rounding. *)
Lemma round_of_Z q (s : bool) :
  0 ≤ q < 2 ^ 53 →
  let x := if s then (- of_Z q)%float else of_Z q in
  Math.round x = x.
Proof.
  intros Hq x. unfold Math.round.
  assert (Prim2SF x = (if s then SFopp else id) (binary_normalize prec emax q 0 false)) as ->.
  { unfold x. destruct s; [rewrite FloatAxioms.opp_spec|]; by rewrite Prim2SF_of_Z. }
  destruct q as [|p|p]; [by destruct s| |lia].
  destruct (binary_normalize_int p) as (m & e & -> & _ & He & Hm); [lia|].
  assert (Z.pos m mod 2 ^ (- e) = 0) as Hmod.
  { rewrite Hm. apply Z.mod_mul. apply Z.pow_nonzero; lia. }
  destruct s; cbn [SFopp id negb]; destruct (0 <=? e); try done;
    cbn zeta; by rewrite Hmod.
Qed.

(** The mantissa of a number has at most 53 digits. *)
Lemma mantissa_bound x s m e :
  Prim2SF x = S754_finite s m e → Z.pos m < 2 ^ 53.
Proof.
  intros Hx. pose proof (Prim2SF_valid x) as Hv. rewrite Hx in Hv.
  unfold valid_binary, bounded, canonical_mantissa, fexp, emin in Hv.
  apply andb_prop in Hv as [Hc _]. apply Z.eqb_eq in Hc.
  change prec with 53 in Hc. change emax with 1024 in Hc.
  pose proof (digits2_bounds m) as [_ Hhi].
  assert (2 ^ Z.pos (digits2_pos m) ≤ 2 ^ 53); [|lia].
  apply Z.pow_le_mono_r; lia.
Qed.

End IntegerNumbers.

Lemma Prim2SF_of_nat (n : nat) :
  (Z.of_nat n < max_safe)%Z →
  Prim2SF (of_nat n) = binary_normalize prec emax (Z.of_nat n) 0 false.
Proof.
  intros Hn. apply (Prim2SF_of_Z (Z.of_nat n)). unfold max_safe in Hn. lia.
Qed.

(** Below [2^53], numbers compare as the natural numbers they stand for. *)
Lemma of_nat_ltb (i k : nat) :
  (Z.of_nat i < max_safe)%Z → (Z.of_nat k < max_safe)%Z →
  (of_nat i <? of_nat k) = (i <? k)%nat.
Proof.
  intros Hi Hk. rewrite FloatAxioms.ltb_spec, !Prim2SF_of_nat by done.
  unfold max_safe in *. rewrite normalize_ltb by lia.
  destruct (Nat.ltb_spec i k); [apply Z.ltb_lt|apply Z.ltb_ge]; lia.
Qed.



(** ** The rounder *)

(** The display examples of the rounding policy. *)
Example round_examples :
  round 0.9999 = 1 ∧ round 5.5555 = 5.56 ∧ round 55.55 = 55.6 ∧ round 555.5 = 556.
Proof. by vm_compute. Qed.

Example round_special :
  round (-0.0004) = (-0) ∧ round infinity = infinity ∧
  PrimFloat.is_nan (round nan) = true.
Proof. by vm_compute. Qed.


(** ** The number of samples *)



(** ** Trials and the two loops *)

Section TrialFacts.

Context {U R : Type}.
Implicit Types (w : World U R) (fn : FancyFn U) (l : Locals).

Lemma same_stores_refl w : same_stores w w.
Proof. done. Qed.

Lemma same_stores_trans w1 w2 w3 :
  same_stores w1 w2 → same_stores w2 w3 → same_stores w1 w3.
Proof. intros (?&?&?) (?&?&?). repeat split; congruence. Qed.

Lemma lift_same_stores {A} (c : Code U A) w r w' :
  lift c w = (r, w') → same_stores w w'.
Proof. unfold lift. destruct (c (heap w)). by intros [= <- <-]. Qed.

Lemma now_same_stores w : same_stores w (now w).2.
Proof. done. Qed.

Lemma call_same_stores fn l w r w' :
  call fn l w = (r, w') → same_stores w w'.
Proof.
  revert l w. induction fn as [|A c k IH|f k IH]; intros l w; cbn.
  - by intros [= <- <-].
  - unfold bind. destruct (lift c w) as [[a|e|] w1] eqn:Hc;
      [|intros [= <- <-]; by eapply lift_same_stores..].
    intros Hk. eapply same_stores_trans; [by eapply lift_same_stores|by eapply IH].
  - unfold bind at 1.
    destruct (lift f _) as [[[]|e|] w1] eqn:Hf;
      [|intros [= <- <-]; by apply lift_same_stores in Hf..].
    unfold bind. cbn. intros Hk%IH. apply lift_same_stores in Hf.
    eapply same_stores_trans; [exact Hf|]. exact Hk.
Qed.

Lemma run1_same_stores fn w r w' : run1 fn w = (r, w') → same_stores w w'.
Proof.
  unfold run1, bind.
  destruct (call fn _ w) as [[l|e|] w1] eqn:Hc;
    [destruct (run l)|..]; intros [= <- <-]; by eapply call_same_stores.
Qed.

Lemma warmup_same_stores fuel opts fn c t w r w' :
  warmup fuel opts fn c t w = (r, w') → same_stores w w'.
Proof.
  revert c t w. induction fuel as [|fuel IH]; intros c t w; cbn.
  - by intros [= <- <-].
  - unfold bind. destruct (run1 fn w) as [[t0|e|] w1] eqn:Hr;
      [|intros [= <- <-]; by eapply run1_same_stores..].
    apply run1_same_stores in Hr.
    destruct (_ || _).
    + intros Hk%IH. by eapply same_stores_trans.
    + by intros [= <- <-].
Qed.

Lemma sampling_same_stores fuel fn samples i tot ts w r w' :
  sampling fuel fn samples i tot ts w = (r, w') → same_stores w w'.
Proof.
  revert i tot ts w. induction fuel as [|fuel IH]; intros i tot ts w; cbn;
    destruct (of_nat i <? samples); unfold ret, no_answer;
    try by intros [= <- <-].
  unfold bind. destruct (run1 fn w) as [[t0|e|] w1] eqn:Hr;
    [|intros [= <- <-]; by eapply run1_same_stores..].
  apply run1_same_stores in Hr. intros Hk%IH. by eapply same_stores_trans.
Qed.

(** *** The runner *)

Lemma call_returns_unmeasured fn l w :
  returns_unmeasured fn (heap w) → ∃ w', call fn l w = (Ok l, w').
Proof.
  revert w. induction fn as [|A c k IH|f k IH]; intros w; cbn.
  - by eexists.
  - unfold bind, lift. destruct (c (heap w)) as [[a|e|] u'] eqn:Hc; try done.
    intros Hk. by apply (IH a (mkWorld _ _ _ _ u')).
  - done.
Qed.

Lemma run1_returns_unmeasured fn w :
  returns_unmeasured fn (heap w) →
  ∃ w', run1 fn w = (Throw ProtocolViolation, w').
Proof.
  intros [w' Hc]%(call_returns_unmeasured fn (mkLocals 0 0 false)).
  exists w'. unfold run1, bind. by rewrite Hc.
Qed.


(** *** The loops *)

Lemma trials_S n fn w :
  trials (S n) fn w =
    match run1 fn w with
    | (Ok t, w1) =>
        match trials n fn w1 with
        | (Ok ts, w2) => (Ok (t :: ts), w2)
        | (Throw e, w2) => (Throw e, w2)
        | (NoAnswer, w2) => (NoAnswer, w2)
        end
    | (Throw e, w1) => (Throw e, w1)
    | (NoAnswer, w1) => (NoAnswer, w1)
    end.
Proof.
  cbn [trials]. unfold bind. destruct (run1 fn w) as [[t|e|] w1]; [|done..].
  by destruct (trials n fn w1) as [[ts|e|] w2].
Qed.





(** A trial that throws after [n] trials for which the loop goes on ends
    the loop with its exception. *)
Lemma warmup_throw fuel opts fn c t w n times w1 e w' :
  trials n fn w = (Ok times, w1) →
  run1 fn w1 = (Throw e, w') →
  (∀ j, 0 < j ≤ n →
     ((c + j <? 4)%nat
      || (fold_left PrimFloat.add (take j times) t <? BenchOpts.warmupTime opts))
     = true) →
  n < fuel →
  warmup fuel opts fn c t w = (Throw e, w').
Proof.
  revert fuel c t w times. induction n as [|n IH]; intros fuel c t w times;
    (destruct fuel as [|fuel]; [lia|]); cbn [warmup]; unfold bind.
  - cbn [trials]. unfold ret. intros [= <- <-] Hr _ _. by rewrite Hr.
  - rewrite trials_S. destruct (run1 fn w) as [[t0|e0|] w2] eqn:Hr0; try done.
    destruct (trials n fn w2) as [[ts|e0|] w3] eqn:Hts; try done.
    intros [= <- <-] Hr Hgo Hfuel.
    pose proof (Hgo 1%nat ltac:(lia)) as H1.
    change (take 1 (t0 :: ts)) with [t0] in H1. cbn [fold_left] in H1.
    rewrite Nat.add_1_r in H1. rewrite H1.
    apply (IH fuel (S c) (t + t0) w2 ts); [done..| |lia].
    intros j Hj. specialize (Hgo (S j) ltac:(lia)).
    change (take (S j) (t0 :: ts)) with (t0 :: take j ts) in Hgo.
    cbn [fold_left] in Hgo.
    by replace (c + S j)%nat with (S c + j)%nat in Hgo by lia.
Qed.

(** A loop that ends within its fuel ends the same way with more. *)
Lemma warmup_fuel_mono fuel fuel' opts fn c t w r w' :
  warmup fuel opts fn c t w = (r, w') → r ≠ NoAnswer → fuel ≤ fuel' →
  warmup fuel' opts fn c t w = (r, w').
Proof.
  revert fuel' c t w. induction fuel as [|fuel IH]; intros fuel' c t w; cbn.
  - by intros [= <- <-].
  - destruct fuel' as [|fuel']; [lia|]. cbn. unfold bind.
    destruct (run1 fn w) as [[t0|e|] w1]; try done.
    destruct (_ || _); [|done]. intros Hw Hr Hle. apply IH; [done..|lia].
Qed.



Lemma sampling_throw fuel fn samples i tot ts w n times w1 e w' :
  trials n fn w = (Ok times, w1) →
  run1 fn w1 = (Throw e, w') →
  (∀ j, i ≤ j ≤ i + n → (of_nat j <? samples) = true) →
  n < fuel →
  sampling fuel fn samples i tot ts w = (Throw e, w').
Proof.
  revert fuel i tot ts w times. induction n as [|n IH];
    intros fuel i tot ts w times; (destruct fuel as [|fuel]; [lia|]);
    cbn [sampling]; unfold bind.
  - cbn [trials]. unfold ret. intros [= <- <-] Hr Hgo _.
    rewrite (Hgo i) by lia. by rewrite Hr.
  - rewrite trials_S. destruct (run1 fn w) as [[t0|e0|] w2] eqn:Hr0; try done.
    destruct (trials n fn w2) as [[times'|e0|] w3] eqn:Hts; try done.
    intros [= <- <-] Hr Hgo Hfuel. rewrite (Hgo i) by lia. rewrite ?Hr0.
    apply (IH fuel (S i) (tot + t0) (ts ++ [t0]) w2 times'); [done..| |lia].
    intros j Hj. apply Hgo. lia.
Qed.

Lemma sampling_fuel_mono fuel fuel' fn samples i tot ts w r w' :
  sampling fuel fn samples i tot ts w = (r, w') → r ≠ NoAnswer → fuel ≤ fuel' →
  sampling fuel' fn samples i tot ts w = (r, w').
Proof.
  revert fuel' i tot ts w. induction fuel as [|fuel IH]; intros fuel' i tot ts w;
    cbn; destruct (of_nat i <? samples) eqn:Hi.
  - by intros [= <- <-].
  - intros H _ _. destruct fuel'; cbn; by rewrite Hi.
  - destruct fuel' as [|fuel']; [lia|]. cbn. rewrite Hi. unfold bind.
    destruct (run1 fn w) as [[t0|e|] w1]; try done.
    intros Hs Hr Hle. apply IH; [done..|lia].
  - intros H _ _. destruct fuel'; cbn; by rewrite Hi.
Qed.

End TrialFacts.

(** ** The single-trial runner *)

Section RunnerClaims.

Context {U R : Type}.
Implicit Types (w : World U R) (fn : FancyFn U).


(** ** The warm-up *)

(** The loop goes on exactly while the count is below 4 or the
    accumulated time is below [options.warmupTime]. *)
Lemma warmup_step fuel opts fn c t w t0 w1 :
  run1 fn w = (Ok t0, w1) →
  warmup (S fuel) opts fn c t w =
    if (S c <? 4)%nat || (t + t0 <? BenchOpts.warmupTime opts)
    then warmup fuel opts fn (S c) (t + t0) w1
    else (Ok (S c, t + t0), w1).
Proof. intros Hr. cbn [warmup]. unfold bind. rewrite Hr. by destruct (_ || _). Qed.


End RunnerClaims.



(** ** The engine *)

Section EngineClaims.

Context {U : Type}.
Implicit Types (w : World U BenchmarkReport.t) (fn : FancyFn U).

(** A successful run, taken apart. *)
Lemma benchFancy_inv fuel options fn w w' :
  benchFancy fuel options fn w = (Ok tt, w') →
  ∃ warmupCount warmupTime w1 totalTime sampleTimes w2,
    let opts := resolve options in
    let samples := sampleCount opts (warmupTime / of_nat warmupCount) in
    warmup fuel opts fn 0 0 w = (Ok (warmupCount, warmupTime), w1)
    ∧ sampling fuel fn samples 0 0 [] w1 = (Ok (totalTime, sampleTimes), w2)
    ∧ w' = match BenchOpts.name opts with
           | Some name =>
               mkWorld (clock w2) (ticks w2)
                 (<[name := BenchmarkReport.mk (totalTime / samples) opts sampleTimes]>
                    (reports w2))
                 (disk w2) (heap w2)
           | None => w2
           end.
Proof.
  unfold benchFancy, bind.
  destruct (warmup _ _ _ _ _ w) as [[[c t]|e|] w1] eqn:Hw; try done.
  destruct (sampling _ _ _ _ _ _ w1) as [[[tot ts]|e|] w2] eqn:Hs; try done.
  intros H. exists c, t, w1, tot, ts, w2. cbn zeta.
  split; [done|]. split; [done|].
  destruct (BenchOpts.name (resolve options)); cbn in H; by injection H as <-.
Qed.

(** A run that does not succeed leaves the registry and the disk as they
    were. *)
Lemma benchFancy_failure fuel options fn w r w' :
  benchFancy fuel options fn w = (r, w') → r ≠ Ok tt → same_stores w w'.
Proof.
  unfold benchFancy, bind.
  destruct (warmup _ _ _ _ _ w) as [[[c t]|e|] w1] eqn:Hw;
    [|intros [= <- <-] _; by eapply warmup_same_stores..].
  destruct (sampling _ _ _ _ _ _ w1) as [[[tot ts]|e|] w2] eqn:Hs;
    [|intros [= <- <-] _;
      (eapply same_stores_trans;
       [by eapply warmup_same_stores|by eapply sampling_same_stores])..].
  destruct (BenchOpts.name (resolve options)); by intros [= <- <-].
Qed.

(** A run that ends within its fuel ends the same way with more. *)
Lemma benchFancy_fuel_mono fuel fuel' options fn w r w' :
  benchFancy fuel options fn w = (r, w') → r ≠ NoAnswer → fuel ≤ fuel' →
  benchFancy fuel' options fn w = (r, w').
Proof.
  unfold benchFancy, bind. intros Hrun Hr Hle.
  destruct (warmup fuel _ _ _ _ w) as [[[c t]|e|] w1] eqn:Hw.
  - rewrite (warmup_fuel_mono _ _ _ _ _ _ _ _ _ Hw) by done.
    destruct (sampling fuel _ _ _ _ _ w1) as [[[tot ts]|e|] w2] eqn:Hs.
    + by rewrite (sampling_fuel_mono _ _ _ _ _ _ _ _ _ _ Hs).
    + by rewrite (sampling_fuel_mono _ _ _ _ _ _ _ _ _ _ Hs).
    + by simplify_eq.
  - by rewrite (warmup_fuel_mono _ _ _ _ _ _ _ _ _ Hw).
  - by simplify_eq.
Qed.


(** An exception in the sampling loop is the outcome of the run. *)
Lemma benchFancy_sampling_throw fuel options fn w warmupCount warmupTime w1 e w2 :
  let opts := resolve options in
  warmup fuel opts fn 0 0 w = (Ok (warmupCount, warmupTime), w1) →
  sampling fuel fn (sampleCount opts (warmupTime / of_nat warmupCount)) 0 0 [] w1
    = (Throw e, w2) →
  benchFancy fuel options fn w = (Throw e, w2).
Proof. intros opts Hw Hs. unfold benchFancy, bind. fold opts. by rewrite Hw, Hs. Qed.

(** C3. A fancy workload that returns without calling the callback makes
    [run1] throw the error [Benchmark must run iteration function]. When
    that trial is one of the warm-up, after [n] trials for which the loop
    went on, or one of the sampling phase, after the warm-up and [n]
    samples, the engine ends with that exception in the world the trial
    left, which has the registry of before the trial. Whenever the engine
    ends with an exception, the registry is what it was before the run: no
    report is written. *)
Theorem protocol_violation_aborts fn w :
  returns_unmeasured fn (heap w) →
  (∃ w',
      run1 fn w = (Throw ProtocolViolation, w')
      ∧ reports w' = reports w
      ∧ (∀ fuel options w0 n times,
            trials n fn w0 = (Ok times, w) →
            (∀ j, 0 < j ≤ n →
               ((j <? 4)%nat
                || (total (take j times) <? BenchOpts.warmupTime (resolve options)))
               = true) →
            n < fuel →
            benchFancy fuel options fn w0 = (Throw ProtocolViolation, w'))
      ∧ (∀ fuel options w0 warmupCount warmupTime w1 n times,
            let opts := resolve options in
            let samples := sampleCount opts (warmupTime / of_nat warmupCount) in
            warmup fuel opts fn 0 0 w0 = (Ok (warmupCount, warmupTime), w1) →
            trials n fn w1 = (Ok times, w) →
            (∀ j, j ≤ n → (of_nat j <? samples) = true) →
            n < fuel →
            benchFancy fuel options fn w0 = (Throw ProtocolViolation, w')))
  ∧ (∀ fuel options w0 e w'',
        benchFancy fuel options fn w0 = (Throw e, w'') →
        reports w'' = reports w0).
Proof.
  intros Hfn. split.
  - destruct (run1_returns_unmeasured (R:=BenchmarkReport.t) fn w Hfn) as [w' Hr].
    exists w'. split; [done|]. split; [by apply run1_same_stores in Hr as (_&?&_)|].
    split.
    + intros fuel options w0 n times Htr Hgo Hfuel. unfold benchFancy, bind.
      by rewrite (warmup_throw fuel (resolve options) fn 0 0 w0 n times w
                    ProtocolViolation w').
    + intros fuel options w0 c t w1 n times opts samples Hw Htr Hgo Hfuel.
      eapply benchFancy_sampling_throw; [exact Hw|].
      eapply sampling_throw; [exact Htr|exact Hr| |exact Hfuel].
      intros j Hj. apply Hgo. lia.
  - intros fuel options w0 e w'' Hb.
    by apply benchFancy_failure in Hb as (_&?&_).
Qed.



End EngineClaims.

(** The workload [flaky], measured under the options [quick] with the
    ticking clock: five trials call the callback (four of the warm-up, one
    sample), the sixth does not, and the run ends with the exception and an
    empty registry. *)
Example benchFancy_flaky :
  let r := benchFancy 100 Examples.quick Examples.flaky (Examples.idle Examples.ticking) in
  r.1 = Throw ProtocolViolation ∧ reports r.2 = ∅ ∧ heap r.2 = 6%nat.
Proof. by vm_compute. Qed.

(** The sixth trial of [flaky], which is the second of the sampling phase. *)
Lemma flaky_sixth_trial :
  let w := mkWorld (R:=BenchmarkReport.t) Examples.ticking 10 ∅ ∅ 5%nat in
  returns_unmeasured Examples.flaky (heap w)
  ∧ ∃ w', run1 Examples.flaky w = (Throw ProtocolViolation, w')
          ∧ reports w' = reports w
          ∧ benchFancy 100 Examples.quick Examples.flaky
              (Examples.idle Examples.ticking)
            = (Throw ProtocolViolation, w').
Proof.
  cbn zeta. split; [exact I|].
  destruct (protocol_violation_aborts Examples.flaky
              (mkWorld Examples.ticking 10 ∅ ∅ 5%nat) I)
    as [(w' & Hrun & Hreports & _ & Hsampling) _].
  exists w'. split; [done|]. split; [done|].
  apply (Hsampling 100%nat Examples.quick (Examples.idle Examples.ticking)
           4%nat 4 (mkWorld Examples.ticking 8 ∅ ∅ 4%nat) 1%nat [1]).
  - by vm_compute.
  - by vm_compute.
  - intros [|[|j]] Hj; [by vm_compute..|lia].
  - lia.
Defined.


(** ** The report file *)

Section StoreClaims.

Context {U : Type}.
Implicit Types (w : World U BenchmarkReport.t) (d : gmap string value).

Lemma shown_report (r : BenchmarkReport.t) :
  shown (BenchmarkReport.to_value r) = Some (round (BenchmarkReport.meanTime r)).
Proof. unfold shown, BenchmarkReport.to_value. cbn. by simplify_map_eq. Qed.

Lemma mean_shown v x w : shown v = Some x → mean v w = (Ok x, w).
Proof.
  unfold shown, mean. destruct (get_prop v "meanTime") as [p|]; [|done]. cbn.
  destruct (ToNumber p); [|done]. cbn. by intros [= <-].
Qed.

Lemma mean_not_shown v w : shown v = None → ∃ r, mean v w = (r, w) ∧ ∀ x, r ≠ Ok x.
Proof.
  unfold shown, mean. destruct (get_prop v "meanTime") as [p|]; [|by eexists].
  cbn. destruct (ToNumber p); [done|by eexists].
Qed.

(** The loop over the merged object: one row per entry when every entry
    has a number to show, and no table otherwise. *)
Lemma rows_spec (r : gmap string value) w :
  (map_Forall (λ _ v, is_Some (shown v)) r → rows r w = (Ok (omap shown r), w))
  ∧ (¬ map_Forall (λ _ v, is_Some (shown v)) r →
     ∃ o, rows r w = (o, w) ∧ ∀ t, o ≠ Ok t).
Proof.
  unfold rows.
  pose (P := λ (acc : M U BenchmarkReport.t (gmap string number))
               (m : gmap string value),
              (map_Forall (λ _ v, is_Some (shown v)) m →
               acc w = (Ok (omap shown m), w))
              ∧ (¬ map_Forall (λ _ v, is_Some (shown v)) m →
                 ∃ o, acc w = (o, w) ∧ ∀ t, o ≠ Ok t)).
  apply (map_fold_weak_ind P); unfold P; clear P.
  - split; [by rewrite omap_empty|]. intros []. apply map_Forall_empty.
  - intros name v m acc Hname [IHok IHbad]. unfold bind.
    destruct (decide (map_Forall (λ _ v, is_Some (shown v)) m)) as [Hm|Hm].
    + rewrite (IHok Hm). split.
      * intros [[x Hx] _]%map_Forall_insert; [|done].
        rewrite (mean_shown _ _ _ Hx). unfold ret.
        by rewrite (omap_insert_Some _ _ _ _ x).
      * intros Hbad. destruct (shown v) as [x|] eqn:Hx.
        { destruct Hbad. apply map_Forall_insert; eauto. }
        destruct (mean_not_shown v w Hx) as (o & -> & Ho).
        destruct o as [x| |]; [by destruct (Ho x)|by eexists..].
    + destruct (IHbad Hm) as (o & -> & Ho). split.
      * by intros [_ ?]%map_Forall_insert.
      * intros _. destruct o as [t| |]; [by destruct (Ho t)|by eexists..].
Qed.

Lemma read_object_spec path w :
  read_object path w =
    (match disk w !! path with
     | None => Throw (SystemError "ENOENT")
     | Some (Unreadable c) => Throw (SystemError c)
     | Some (Readable (NotJson _)) => Throw SyntaxError
     | Some (Readable (Json v)) =>
         if not_an_object v then Throw (Error "Report file is not an object")
         else Ok v
     end, w).
Proof.
  unfold read_object, bind, readFileSync.
  destruct (disk w !! path) as [[c|[text|v]]|]; try done.
  cbn. by destruct (not_an_object v).
Qed.

Lemma readFileSync_world path w r w1 :
  readFileSync path w = (r, w1) → w1 = w.
Proof.
  unfold readFileSync. destruct (disk w !! path) as [[|]|]; congruence.
Qed.

Lemma JSON_parse_world text w r w1 :
  JSON_parse text w = (r, w1) → w1 = w.
Proof. destruct text; cbn; unfold throw, ret; congruence. Qed.

Lemma saveReportsSync_unfold filename w :
  saveReportsSync filename w =
    (let path := default "report.json"%string filename in
     let* currentReports :=
       try_catch (read_object path)
         (λ e, if bool_decide (code e ≠ Some "ENOENT"%string) then throw e
               else ret (VObj ∅)) in
     let merged :=
       spread (own_props currentReports) (BenchmarkReport.to_value <$> reports w) in
     writeFileSync path (JSON_stringify (VObj merged))) w.
Proof.
  unfold saveReportsSync, read_object, bind, try_catch, get_reports.
  cbn zeta.
  destruct (readFileSync _ w) as [[text|e|] w1] eqn:Hread.
  - apply readFileSync_world in Hread as ->.
    destruct (JSON_parse text w) as [[v|e|] w1] eqn:Hparse;
      apply JSON_parse_world in Hparse as ->.
    + destruct (not_an_object v); cbn; [|done].
      by rewrite bool_decide_true.
    + by destruct (bool_decide _).
    + done.
  - apply readFileSync_world in Hread as ->. by destruct (bool_decide _).
  - by apply readFileSync_world in Hread as ->.
Qed.

Lemma reportTable_unfold path w :
  reportTable (Some path) w =
    (let* fileReports := read_object path in
     rows (spread (spread ∅ (BenchmarkReport.to_value <$> reports w))
                  (own_props fileReports))) w.
Proof.
  unfold reportTable, read_object, bind, get_reports.
  destruct (readFileSync _ w) as [[text|e|] w1]; [|done..].
  destruct (JSON_parse text w1) as [[v|e|] w2]; [|done..].
  by destruct (not_an_object v).
Qed.






End StoreClaims.

(** C1, at an input where the code departs from it. The registry has a
    report of mean time 1 under [A], the report file an older entry of
    mean time 2 under [A] and an entry under [B]. In the table of
    [reportTable] with the path of the file, the row of [A] shows 2, the
    mean time of the file, not the rounded mean time 1 of the registry.
    ([saveReportsSync] on the same world writes the report of the registry
    under [A].) *)
Lemma reportTable_file_entry_wins :
  (reportTable (Some "report.json"%string) Examples.stale).1
    = Ok {[ "A"%string := 2; "B"%string := 5.56 ]}
  ∧ BenchmarkReport.meanTime <$> reports Examples.stale !! "A"%string = Some 1
  ∧ (round 1 =? 2) = false.
Proof. by vm_compute. Qed.


(** A report file that holds [[]] is accepted by both readers, and saved
    over as if it were an empty mapping. *)
Example report_file_array :
  (saveReportsSync (Some "report.json"%string) Examples.array_file).1 = Ok tt
  ∧ disk (saveReportsSync (Some "report.json"%string) Examples.array_file).2
      !! "report.json"%string = Some (Readable (Json (VObj ∅)))
  ∧ (reportTable (Some "report.json"%string) Examples.array_file).1 = Ok ∅.
Proof. by vm_compute. Qed.




(** Saving with no report file writes the registry. *)
Example saveReportsSync_unsaved :
  disk (saveReportsSync None Examples.unsaved).2
    = {[ "report.json"%string :=
           Readable (Json (VObj {[ "A"%string :=
                                     BenchmarkReport.to_value Examples.fresh ]})) ]}.
Proof. by vm_compute. Qed.

(** What is written for a report is its JSON text: here the report itself. *)
Example json_roundtrip_fresh :
  json_roundtrip (BenchmarkReport.to_value Examples.fresh)
    = BenchmarkReport.to_value Examples.fresh.
Proof. by vm_compute. Qed.

(** ** The plain engine of [src/index.ts]

    It computes the number of samples with the same [sampleCount], but its
    warm-up loop tests the elapsed time only, and its report holds the time
    of the whole sampling loop divided by the number of samples, without
    the list of sample times. *)

Example IndexTs_warmup_single_trial :
  (IndexTs.warmup 10 (resolve Examples.quick) Examples.noop 0 0
     (mkWorld Examples.ticking 1 ∅ ∅ 0%nat)).1 = Ok (1%nat, 1).
Proof. by vm_compute. Qed.

Example IndexTs_bench_quick :
  reports (IndexTs.bench 100 Examples.quick Examples.noop
             (mkWorld Examples.ticking 0 ∅ ∅ 0%nat)).2
    = {[ "A"%string := IndexTs.mkReport (1 / 3) (resolve Examples.quick) ]}.
Proof. by vm_compute. Qed.

(** * Further properties

    What follows is not stated by the specification: it is read off the
    code, for the functions the claims leave out or cover in part. *)

(** ** More on numbers *)

Section DivisionFacts.

(** A number that is neither NaN nor infinite is a zero or has a
    mantissa and an exponent. *)
Lemma finite_cases (x : number) :
  PrimFloat.is_nan x = false → PrimFloat.is_infinity x = false →
  (∃ s, Prim2SF x = S754_zero s) ∨ (∃ s m e, Prim2SF x = S754_finite s m e).
Proof.
  unfold PrimFloat.is_nan, PrimFloat.is_infinity.
  rewrite !FloatAxioms.eqb_spec, FloatAxioms.abs_spec.
  change (Prim2SF infinity) with (S754_infinity false).
  destruct (Prim2SF x) as [s|[]| |s m e]; try done; eauto.
Qed.

(** The difference of a finite number and itself is [0]. *)
Lemma sub_diag (x : number) :
  PrimFloat.is_nan x = false → PrimFloat.is_infinity x = false → x - x = 0.
Proof.
  intros Hn Hi. apply Prim2SF_inj. rewrite FloatAxioms.sub_spec.
  change (Prim2SF 0) with (S754_zero false).
  destruct (finite_cases x Hn Hi) as [[s ->]|(s & m & e & ->)].
  - by destruct s.
  - unfold SF64sub, SFsub. cbn zeta. by rewrite Z.sub_diag.
Qed.







End DivisionFacts.

Section Floors.
Local Open Scope Z_scope.

(** The number of digits of a positive integer is determined by the
    powers of 2 around it. *)
Lemma digits_unique (m a b : Z) :
  2 ^ (a - 1) ≤ m < 2 ^ a → 2 ^ (b - 1) ≤ m < 2 ^ b → 0 < a → 0 < b → a = b.
Proof.
  intros Ha Hb Ha0 Hb0.
  destruct (Z.lt_trichotomy a b) as [Hlt|[Heq|Hgt]]; [|done|].
  - assert (2 ^ a ≤ 2 ^ (b - 1)) by (apply Z.pow_le_mono_r; lia). lia.
  - assert (2 ^ b ≤ 2 ^ (a - 1)) by (apply Z.pow_le_mono_r; lia). lia.
Qed.

(** The mantissa of a number has 53 digits, or its exponent is the
    smallest one. *)
Lemma canonical x s m e :
  Prim2SF x = S754_finite s m e →
  Z.max (Z.pos (digits2_pos m) + e - 53) (-1074) = e ∧ e ≤ 971.
Proof.
  intros Hx. pose proof (Prim2SF_valid x) as Hv. rewrite Hx in Hv.
  unfold valid_binary, bounded, canonical_mantissa, fexp, emin in Hv.
  apply andb_prop in Hv as [Hc He]. apply Z.eqb_eq in Hc. apply Z.leb_le in He.
  change prec with 53 in *. change emax with 1024 in *. split; lia.
Qed.

(** A number with an integral value [p] below [2^53] is the number
    [of_Z p]. *)
Lemma of_Z_finite x m e p :
  Prim2SF x = S754_finite false m e →
  e ≤ 0 → Z.pos m = Z.pos p * 2 ^ (- e) →
  x = of_Z (Z.pos p).
Proof.
  intros Hx He Hm. pose proof (canonical x _ _ _ Hx) as [Hcan _].
  pose proof (mantissa_bound x _ _ _ Hx) as Hbound.
  pose proof (digits2_bounds m) as Hdm. pose proof (digits2_bounds p) as Hdp.
  assert (0 < 2 ^ (- e)) as Hpow by (apply Z.pow_pos_nonneg; lia).
  assert (Z.pos p < 2 ^ 53) as Hp by nia.
  assert (Z.pos (digits2_pos m) = Z.pos (digits2_pos p) + - e) as Hd.
  { apply (digits_unique (Z.pos m)); [done| |lia|lia].
    replace (Z.pos (digits2_pos p) + - e - 1)
      with ((Z.pos (digits2_pos p) - 1) + - e) by lia.
    rewrite !Z.pow_add_r by lia. nia. }
  assert (e = Z.pos (digits2_pos p) - 53) as He'.
  { destruct (Z.max_spec (Z.pos (digits2_pos m) + e - 53) (-1074))
      as [[Hlt Hmax]|[Hge Hmax]]; [|lia].
    (* the smallest exponent: the mantissa would be a multiple of 2^1074 *)
    assert (e = -1074) as -> by lia.
    assert (2 ^ 53 ≤ 2 ^ (- -1074)) by (apply Z.pow_le_mono_r; lia). nia. }
  apply Prim2SF_inj. rewrite Hx, Prim2SF_of_Z by lia.
  destruct (binary_normalize_int p Hp) as (m' & e' & -> & He'' & _ & Hm').
  assert (e' = e) as -> by lia. f_equal. lia.
Qed.

(** A number with an exponent that is not negative is an integer; below
    [2^53], where [2^53] is [2 * C], its exponent is [0]. *)
Lemma of_Z_integral x m e C :
  Z.pos C = 2 ^ 52 →
  Prim2SF x = S754_finite false m e → 0 ≤ e →
  SFltb (S754_finite false m e) (S754_finite false C 1) = true →
  ∃ k : Z, 0 < k < 2 ^ 53 ∧ x = of_Z k.
Proof.
  intros HC Hx He.
  pose proof (mantissa_bound x _ _ _ Hx) as Hbound.
  pose proof (canonical x _ _ _ Hx) as [Hcan _].
  pose proof (digits2_bounds m) as Hdm.
  unfold SFltb, SFcompare.
  assert (Z.pos (digits2_pos m) = 53) as Hd by lia.
  assert (2 ^ 52 ≤ Z.pos m) as Hm52
    by (rewrite Hd in Hdm; change (53 - 1) with 52 in Hdm; apply Hdm).
  destruct (Z.compare_spec e 1) as [->|Hlt|Hgt]; [|clear Hcan|done].
  { change (PosDef.Pos.compare_cont Eq m C) with (m ?= C)%positive.
    destruct (Pos.compare_spec m C) as [?|Hm|?]; [done| |done]. lia. }
  intros _. assert (e = 0) as -> by lia.
  exists (Z.pos m). split; [lia|].
  apply (of_Z_finite x m 0 m); [done|lia|]. cbn. lia.
Qed.

(** The floor of a number, when it is positive and below [2^53], is a
    positive integer. *)
Lemma floor_natural (x : number) :
  (0 <? Math.floor x)%float = true →
  (Math.floor x <? of_Z (2 ^ 53))%float = true →
  ∃ k, 0 < k < 2 ^ 53 ∧ Math.floor x = of_Z k.
Proof.
  unfold Math.floor. destruct (Prim2SF x) as [s0|s0| |s m e] eqn:Hx.
  1-3: rewrite !FloatAxioms.ltb_spec, Hx;
       change (Prim2SF 0) with (S754_zero false);
       by destruct s0 || done.
  pose proof (mantissa_bound x _ _ _ Hx) as Hbound.
  pose proof (canonical x _ _ _ Hx) as [Hcan _].
  pose proof (digits2_bounds m) as Hdm.
  destruct (0 <=? e) eqn:He.
  - (* an exponent that is not negative: the number is an integer *)
    apply Z.leb_le in He. rewrite !FloatAxioms.ltb_spec, Hx.
    change (Prim2SF 0) with (S754_zero false).
    change (Prim2SF (of_Z (2 ^ 53))) with (S754_finite false 4503599627370496 1).
    destruct s; [done|]. intros _.
    by apply (of_Z_integral x m e 4503599627370496).
  - apply Z.leb_gt in He. cbn zeta.
    assert (0 < 2 ^ (- e)) as Hpow by (apply Z.pow_pos_nonneg; lia).
    destruct (Z.pos m mod 2 ^ (- e) =? 0) eqn:Hmod.
    + (* an integer with a negative exponent *)
      apply Z.eqb_eq in Hmod.
      rewrite !FloatAxioms.ltb_spec, Hx.
      change (Prim2SF 0) with (S754_zero false).
      destruct s; [done|]. intros _ _.
      pose proof (Z.div_mod (Z.pos m) (2 ^ (- e)) ltac:(lia)) as Hdiv.
      rewrite Hmod, Z.add_0_r in Hdiv.
      destruct (Z.pos m / 2 ^ (- e)) as [|p|p] eqn:Hq; [lia| |lia].
      exists (Z.pos p). split; [nia|].
      apply (of_Z_finite x m e p); [done|lia|lia].
    + destruct s.
      * (* a negative number: its floor is not positive *)
        rewrite FloatAxioms.ltb_spec, FloatAxioms.opp_spec.
        change (Prim2SF 0) with (S754_zero false).
        assert (0 ≤ (Z.pos m + 2 ^ (- e) - 1) / 2 ^ (- e) < 2 ^ 53) as Hq.
        { split; [apply Z.div_pos; lia|].
          apply Z.div_lt_upper_bound; [lia|].
          assert (2 ≤ 2 ^ (- e)) as H2
            by (change 2 with (2 ^ 1) at 1; apply Z.pow_le_mono_r; lia).
          assert (2 ≤ 2 ^ 53) as HK by done.
          set (d := 2 ^ (- e)) in *. set (K := 2 ^ 53) in *. nia. }
        rewrite Prim2SF_of_Z by done.
        destruct (_ / _) as [|p|p]; [done| |lia].
        by destruct (binary_normalize_int p) as (m' & e' & -> & _); [lia|].
      * intros Hpos _.
        assert (0 ≤ Z.pos m / 2 ^ (- e) < 2 ^ 53) as Hq.
        { split; [apply Z.div_pos; lia|]. apply Z.div_lt_upper_bound; [lia|].
          assert (1 * 2 ^ 53 ≤ 2 ^ (- e) * 2 ^ 53)
            by (apply Z.mul_le_mono_nonneg_r; lia). lia. }
        exists (Z.pos m / 2 ^ (- e)). split; [|done].
        destruct (Z.pos m / 2 ^ (- e)) as [|p|p] eqn:Hdiv; [|lia|lia].
        by vm_compute in Hpos.
Qed.

End Floors.

(** X2. The number of samples is a whole number. When [options.samples]
    is a natural number and the number of samples is below [2^53], it is a
    natural number [k], at least [options.samples]: the loop index, which
    counts from [0] in steps of [1], is below it exactly [k] times. *)
Theorem sampleCount_natural (opts : BenchOpts.t) (estimate : number) (s : nat) :
  BenchOpts.samples opts = of_nat s →
  (Z.of_nat s < max_safe)%Z →
  (sampleCount opts estimate <? of_Z max_safe) = true →
  ∃ k : nat,
    sampleCount opts estimate = of_nat k
    ∧ (s ≤ k)%nat ∧ (Z.of_nat k < max_safe)%Z
    ∧ ∀ i : nat, (Z.of_nat i < max_safe)%Z →
        (of_nat i <? sampleCount opts estimate) = (i <? k)%nat.
Proof.
  intros Hs Hmax Hbelow.
  assert (∃ k : nat, sampleCount opts estimate = of_nat k
                     ∧ (s ≤ k)%nat ∧ (Z.of_nat k < max_safe)%Z)
    as (k & Hk & Hsk & Hkmax).
  2: { exists k. split; [done|]. split; [done|]. split; [done|].
       intros i Hi. rewrite Hk. by apply of_nat_ltb. }
  revert Hbelow. unfold sampleCount, Math.max. rewrite Hs.
  set (b := Math.floor _).
  destruct (PrimFloat.is_nan (of_nat s) || PrimFloat.is_nan b) eqn:Hnan;
    [intros Hb; by vm_compute in Hb|].
  assert (Prim2SF (of_nat s) = S754_zero false
          ∨ ∃ m e, Prim2SF (of_nat s) = S754_finite false m e) as Ha.
  { rewrite Prim2SF_of_nat by done. destruct (Z.of_nat s) as [|p|p] eqn:Hp;
      [by left| |lia].
    destruct (binary_normalize_int p) as (m & e & -> & _);
      [by unfold max_safe in Hmax|]. right. by eexists _, _. }
  destruct (PrimFloat.is_zero (of_nat s) && PrimFloat.is_zero b) eqn:Hzero.
  - (* two zeros: the first one is [+0] and is returned *)
    apply andb_prop in Hzero as [Hz _].
    assert (of_nat s = 0) as Hs0.
    { apply Prim2SF_inj. change (Prim2SF 0) with (S754_zero false).
      destruct Ha as [->|(m & e & Ha)]; [done|].
      revert Hz. unfold PrimFloat.is_zero. rewrite FloatAxioms.eqb_spec, Ha. done. }
    rewrite Hs0. change (PrimFloat.get_sign 0) with false. cbn iota.
    intros _. exists s. by rewrite Hs0.
  - destruct (of_nat s <? b) eqn:Hlt; [|intros _; by exists s].
    intros Hb.
    destruct (floor_natural (BenchOpts.testTime opts / estimate))
      as (k & Hk & Hfloor).
    { fold b. revert Hlt. rewrite !FloatAxioms.ltb_spec.
      change (Prim2SF 0) with (S754_zero false).
      destruct Ha as [->|(m & e & ->)];
        by destruct (Prim2SF b) as [?|[]| |[] ? ?]. }
    { exact Hb. }
    assert (b = of_nat (Z.to_nat k)) as Hkk.
    { unfold b, of_nat. rewrite Z2Nat.id by lia. exact Hfloor. }
    rewrite Hkk in *. exists (Z.to_nat k). split; [done|].
    assert (Z.of_nat (Z.to_nat k) < max_safe)%Z as Hkmax
      by (unfold max_safe; lia).
    split; [|done]. rewrite of_nat_ltb in Hlt by done.
    apply Nat.ltb_lt in Hlt. lia.
Qed.

(** The options [quick] and an estimate of 1 ms: 3 samples. *)
Lemma sampleCount_quick :
  ∃ k : nat, sampleCount (resolve Examples.quick) 1 = of_nat k ∧ (2 ≤ k)%nat.
Proof.
  destruct (sampleCount_natural (resolve Examples.quick) 1 2)
    as (k & Hk & Hle & _); [reflexivity..|].
  by exists k.
Defined.

(** X3. A whole number of milliseconds is displayed as it is: [round]
    returns every natural number below [2^53] unchanged. *)
Theorem round_whole (n : nat) :
  (Z.of_nat n < max_safe)%Z → round (of_nat n) = of_nat n.
Proof.
  intros Hn. destruct (Nat.lt_ge_cases n 100) as [Hlt|Hge].
  - do 100 (destruct n as [|n]; [by vm_compute|]). lia.
  - unfold round.
    assert (∀ k, (k ≤ 100)%nat → (of_nat n <? of_nat k) = false) as Hk.
    { intros k Hk. rewrite of_nat_ltb; [apply Nat.ltb_ge; lia|done|].
      unfold max_safe. assert (2 ^ 53 > 100)%Z by done. lia. }
    change 1 with (of_nat 1). change 10 with (of_nat 10).
    change 100 with (of_nat 100). rewrite !Hk by lia.
    apply (round_of_Z (Z.of_nat n) false). unfold max_safe in Hn. lia.
Qed.

(** A quarter of a second. *)
Lemma round_whole_250 : round 250 = 250.
Proof. apply (round_whole 250). reflexivity. Defined.

(** ** More on trials and on the engine *)

Section ClockReadings.

Context {U R : Type}.
Implicit Types (w : World U R) (fn : FancyFn U) (l : Locals).

(** Code of the workload changes its heap only. *)
Lemma lift_inv {A} (c : Code U A) w r w' :
  lift c w = (r, w') →
  c (heap w) = (r, heap w') ∧ ticks w' = ticks w ∧ same_stores w w'.
Proof. unfold lift. destruct (c (heap w)). by intros [= <- <-]. Qed.







End ClockReadings.


Section BenchClock.

Context {U : Type}.
Implicit Types (w : World U BenchmarkReport.t) (fn : FancyFn U).

(** A trial of the wrapper of a workload that returns. *)
Lemma run1_plain (f : Code U unit) (w : World U BenchmarkReport.t) u' :
  f (heap w) = (Ok tt, u') →
  run1 (plain f) w
    = (Ok (clock w (S (ticks w)) - clock w (ticks w)),
       mkWorld (clock w) (S (S (ticks w))) (reports w) (disk w) u').
Proof.
  intros Hf. unfold run1, plain. cbn [call]. unfold bind, now, lift. cbn.
  by rewrite Hf.
Qed.




(** X7. An exception of a trial is the outcome of the run. The engine
    catches nothing: when a trial throws, from the code of the workload or
    from the function it measures, after [n] trials of the warm-up for
    which the loop went on, or after the warm-up and [n] samples, the run
    ends with that exception, in the world the trial left. No later trial
    runs and no report is written. *)
Theorem trial_exception_ends_run fn w e w' :
  run1 fn w = (Throw e, w') →
  reports w' = reports w
  ∧ (∀ fuel options w0 n times,
        trials n fn w0 = (Ok times, w) →
        (∀ j, (0 < j ≤ n)%nat →
           ((j <? 4)%nat
            || (total (take j times) <? BenchOpts.warmupTime (resolve options)))
           = true) →
        (n < fuel)%nat →
        benchFancy fuel options fn w0 = (Throw e, w'))
  ∧ (∀ fuel options w0 warmupCount warmupTime w1 n times,
        let opts := resolve options in
        let samples := sampleCount opts (warmupTime / of_nat warmupCount) in
        warmup fuel opts fn 0 0 w0 = (Ok (warmupCount, warmupTime), w1) →
        trials n fn w1 = (Ok times, w) →
        (∀ j, (j ≤ n)%nat → (of_nat j <? samples) = true) →
        (n < fuel)%nat →
        benchFancy fuel options fn w0 = (Throw e, w')).
Proof.
  intros Hr. split; [by apply run1_same_stores in Hr as (_&?&_)|]. split.
  - intros fuel options w0 n times Htr Hgo Hfuel. unfold benchFancy, bind.
    by rewrite (warmup_throw fuel (resolve options) fn 0 0 w0 n times w e w').
  - intros fuel options w0 c t w1 n times opts samples Hw Htr Hgo Hfuel.
    eapply benchFancy_sampling_throw; [exact Hw|].
    eapply sampling_throw; [exact Htr|exact Hr| |exact Hfuel].
    intros j Hj. apply Hgo. lia.
Qed.

(** X8. A run touches one report at most. Whatever its outcome,
    [benchFancy] leaves the disk as it was, and every report of the
    registry but the one under the name of the run; a run that does not
    succeed, or that has no name, leaves the whole registry as it was. *)
Theorem benchFancy_one_report fuel options fn w :
  let run := benchFancy fuel options fn w in
  disk run.2 = disk w
  ∧ (∀ name, BenchOpts.name (resolve options) ≠ Some name →
       reports run.2 !! name = reports w !! name)
  ∧ (run.1 ≠ Ok tt ∨ BenchOpts.name (resolve options) = None →
       reports run.2 = reports w).
Proof.
  cbn zeta. destruct (benchFancy fuel options fn w) as [r w'] eqn:Hrun.
  cbn [fst snd].
  assert (r = Ok tt ∨ r ≠ Ok tt) as [->|Hr].
  { destruct r as [[]| |]; by (left + right). }
  - apply benchFancy_inv in Hrun
      as (c & t & w1 & tot & ts & w2 & Hw & Hs & ->). cbn zeta in *.
    apply warmup_same_stores in Hw as (_ & Hr1 & Hd1).
    apply sampling_same_stores in Hs as (_ & Hr2 & Hd2).
    destruct (BenchOpts.name (resolve options)) as [n|]; cbn [disk reports].
    + split; [congruence|]. split; [|by intros [|]]. intros name Hname.
      rewrite lookup_insert_ne by congruence. congruence.
    + split; [congruence|]. split; intros; congruence.
  - apply benchFancy_failure in Hrun as (_ & Hrep & Hdisk); [|done].
    split; [done|]. split; intros; congruence.
Qed.

(** The warm-up under a clock that does not move. *)
Lemma warmup_frozen fuel opts (f : Code U unit) c w x :
  (∀ n, clock w n = x) →
  PrimFloat.is_nan x = false → PrimFloat.is_infinity x = false →
  (∀ u, ∃ u', f u = (Ok tt, u')) →
  (0 <? BenchOpts.warmupTime opts) = true →
  ∃ w', warmup fuel opts (plain f) c 0 w = (NoAnswer, w') ∧ same_stores w w'.
Proof.
  intros Hclock Hn Hi Hf Hwt. revert c w Hclock.
  induction fuel as [|fuel IH]; intros c w Hclock.
  - by exists w.
  - destruct (Hf (heap w)) as [u' Hu]. cbn [warmup]. unfold bind.
    rewrite (run1_plain f w u' Hu), !Hclock, sub_diag by done.
    change (0 + 0) with 0. rewrite Hwt, orb_true_r.
    destruct (IH (S c) (mkWorld (clock w) (S (S (ticks w))) (reports w)
                          (disk w) u'))
      as (w' & -> & Hs); [done|].
    by exists w'.
Qed.



(** X9. A clock that does not move. When every reading of the clock is the
    same finite number and the options ask for a warm-up, [bench] never
    returns for a workload that does: each trial measures [0], the
    accumulated warm-up time stays [0], below [options.warmupTime], and the
    warm-up loop goes on. No report is written. *)
Theorem bench_frozen_clock fuel options (f : Code U unit) w x :
  (∀ n, clock w n = x) →
  PrimFloat.is_nan x = false → PrimFloat.is_infinity x = false →
  (∀ u, ∃ u', f u = (Ok tt, u')) →
  (0 <? BenchOpts.warmupTime (resolve options)) = true →
  (bench fuel options f w).1 = NoAnswer
  ∧ reports (bench fuel options f w).2 = reports w.
Proof.
  intros Hclock Hn Hi Hf Hwt. unfold bench, benchFancy, bind.
  destruct (warmup_frozen fuel (resolve options) f 0 w x) as (w' & -> & _ & Hr & _);
    done.
Qed.



End BenchClock.



(** The sixth call of [failing], which is the second sample of a run
    under the options [quick]: the run ends with the exception of the
    workload. *)
Lemma failing_sixth_call :
  let w := mkWorld (R:=BenchmarkReport.t) Examples.ticking 10 ∅ ∅ 5%nat in
  let w' := mkWorld (R:=BenchmarkReport.t) Examples.ticking 11 ∅ ∅ 5%nat in
  run1 (plain Examples.failing) w = (Throw (Error "out of input"), w')
  ∧ benchFancy 100 Examples.quick (plain Examples.failing)
      (Examples.idle Examples.ticking)
    = (Throw (Error "out of input"), w').
Proof.
  cbn zeta. split; [reflexivity|].
  destruct (trial_exception_ends_run (plain Examples.failing)
              (mkWorld Examples.ticking 10 ∅ ∅ 5%nat)
              (Error "out of input")
              (mkWorld Examples.ticking 11 ∅ ∅ 5%nat) eq_refl)
    as (_ & _ & Hsampling).
  apply (Hsampling 100%nat Examples.quick (Examples.idle Examples.ticking)
           4%nat 4 (mkWorld Examples.ticking 8 ∅ ∅ 4%nat) 1%nat [1]).
  - by vm_compute.
  - by vm_compute.
  - intros [|[|j]] Hj; [by vm_compute..|lia].
  - lia.
Defined.

(** The no-op workload under the default options and a clock that does
    not move. *)
Lemma bench_frozen_default :
  (bench 50 NoOptions Examples.noop (Examples.idle Examples.frozen)).1 = NoAnswer.
Proof.
  apply (bench_frozen_clock 50 NoOptions Examples.noop
           (Examples.idle Examples.frozen) 0).
  - reflexivity.
  - reflexivity.
  - reflexivity.
  - intros u. by exists (S u).
  - reflexivity.
Defined.



(** ** More on the report file *)

(** Induction on values, through the items of arrays and the properties
    of objects. *)
Lemma value_ind' (P : value → Prop) :
  P VUndefined → P VNull → (∀ b, P (VBool b)) → (∀ x, P (VNum x)) →
  (∀ s, P (VStr s)) →
  (∀ items, Forall P items → P (VArr items)) →
  (∀ props, map_Forall (λ _, P) props → P (VObj props)) →
  ∀ v, P v.
Proof.
  intros Hu Hn Hb Hx Hs Ha Ho v.
  remember (value_size v) as n eqn:Hsize. revert v Hsize.
  induction (lt_wf n) as [n _ IH]. intros [| | | | |items|props] ->; try done.
  - apply Ha. cbn in IH. induction items as [|x items IHi]; [done|].
    constructor.
    + eapply IH; [|done]. cbn. lia.
    + apply IHi. intros m Hm. apply IH. cbn. lia.
  - apply Ho. cbn in IH.
    induction props as [|k x m Hk Hfirst IHm] using map_first_key_ind.
    + apply map_Forall_empty.
    + rewrite map_fold_insert_first_key in IH by done.
      apply map_Forall_insert; [done|]. split.
      * eapply IH; [|done]. lia.
      * apply IHm. intros n' Hn'. apply IH. lia.
Qed.

(** What a number is read back as. *)
Lemma json_roundtrip_num (x : number) :
  json_roundtrip (VNum x) =
    if PrimFloat.is_nan x || PrimFloat.is_infinity x then VNull
    else if PrimFloat.is_zero x then VNum 0 else VNum x.
Proof. reflexivity. Qed.

(** Nothing is read back as [undefined]. *)
Lemma json_roundtrip_defined (v : value) : json_roundtrip v ≠ VUndefined.
Proof.
  destruct v; try done. rewrite json_roundtrip_num.
  destruct (_ || _); [done|]. by destruct (PrimFloat.is_zero x).
Qed.

Lemma json_entry_defined (q : value) :
  q ≠ VUndefined →
  match q with
  | VUndefined => None
  | _ => Some (json_roundtrip q)
  end = Some (json_roundtrip q).
Proof. by destruct q. Qed.

(** What was read back from a JSON text is read back as it is from the
    text written for it. *)
Lemma json_roundtrip_idempotent (v : value) :
  json_roundtrip (json_roundtrip v) = json_roundtrip v.
Proof.
  induction v as [| | | | |items IH|props IH] using value_ind'; try done.
  - rewrite (json_roundtrip_num x).
    destruct (PrimFloat.is_nan x || PrimFloat.is_infinity x) eqn:Hn; [done|].
    destruct (PrimFloat.is_zero x) eqn:Hz; [done|].
    by rewrite json_roundtrip_num, Hn, Hz.
  - cbn. f_equal. rewrite <- list_fmap_compose.
    apply Forall_fmap_ext_1. eapply Forall_impl; [exact IH|]. done.
  - cbn. f_equal. apply map_eq. intros k. rewrite !lookup_omap.
    destruct (props !! k) as [p|] eqn:Hp; [|done]. cbn.
    specialize (IH k p Hp). cbn in IH.
    assert (p = VUndefined ∨ p ≠ VUndefined) as [->|Hne]; [|done|].
    { destruct p; by (left + right). }
    rewrite (json_entry_defined p Hne). cbn.
    rewrite json_entry_defined by apply json_roundtrip_defined.
    by rewrite IH.
Qed.

(** The zero that is not negative is [0]. *)
Lemma is_zero_positive (x : number) :
  PrimFloat.is_zero x = true → PrimFloat.get_sign x = false → x = 0.
Proof.
  unfold PrimFloat.get_sign. intros Hz. rewrite Hz. revert Hz.
  unfold PrimFloat.is_zero.
  rewrite FloatAxioms.eqb_spec, FloatAxioms.ltb_spec, FloatAxioms.div_spec.
  change (Prim2SF zero) with (S754_zero false).
  intros Hz Hs. apply Prim2SF_inj. change (Prim2SF 0) with (S754_zero false).
  destruct (Prim2SF x) as [[]|[]| |[] m e]; try done.
Qed.

Lemma json_roundtrip_number (x : number) :
  json_number x = true → json_roundtrip (VNum x) = VNum x.
Proof.
  unfold json_number. intros [Hn Hz]%andb_prop.
  rewrite json_roundtrip_num. apply negb_true_iff in Hn, Hz. rewrite Hn.
  destruct (PrimFloat.is_zero x) eqn:Hzero; [|done].
  cbn in Hz. by rewrite (is_zero_positive x).
Qed.

Lemma json_roundtrip_numbers (l : list number) :
  forallb json_number l = true →
  json_roundtrip (VArr (VNum <$> l)) = VArr (VNum <$> l).
Proof.
  intros Hl. cbn. f_equal. induction l as [|x l IH]; [done|].
  cbn in Hl. apply andb_prop in Hl as [Hx Hl].
  cbn [fmap list_fmap map]. f_equal; [by apply json_roundtrip_number|by apply IH].
Qed.

Lemma json_roundtrip_options (o : BenchOpts.t) :
  json_number (BenchOpts.warmupTime o) = true →
  json_number (BenchOpts.testTime o) = true →
  json_number (BenchOpts.samples o) = true →
  json_roundtrip (BenchOpts.to_value o) = BenchOpts.to_value o.
Proof.
  intros Hw Ht Hs. unfold BenchOpts.to_value.
  change (json_roundtrip (VObj ?m)) with
    (VObj (omap (λ p, match p with
                      | VUndefined => None
                      | _ => Some (json_roundtrip p)
                      end) m)).
  f_equal.
  rewrite !(omap_insert_Some _ _ _ _ (VNum _)) by (by rewrite json_roundtrip_number).
  rewrite (omap_insert_Some _ _ _ _ (VBool (BenchOpts.quiet o))) by done.
  do 4 f_equal. destruct (BenchOpts.name o) as [n|].
  - by rewrite omap_singleton_Some with (y := VStr n).
  - apply omap_empty.
Qed.

(** A report with numbers of that kind is read back as it was written. *)
Lemma json_roundtrip_report (r : BenchmarkReport.t) :
  json_report r = true →
  json_roundtrip (BenchmarkReport.to_value r) = BenchmarkReport.to_value r.
Proof.
  unfold json_report.
  intros [[[[Hm Hl]%andb_prop Hw]%andb_prop Ht]%andb_prop Hs]%andb_prop.
  unfold BenchmarkReport.to_value.
  change (json_roundtrip (VObj ?m)) with
    (VObj (omap (λ p, match p with
                      | VUndefined => None
                      | _ => Some (json_roundtrip p)
                      end) m)).
  f_equal.
  rewrite (omap_insert_Some _ _ _ _ (VArr (VNum <$> BenchmarkReport.sampleTimes r)))
    by (by rewrite json_roundtrip_numbers).
  rewrite (omap_insert_Some _ _ _ _ (VNum (BenchmarkReport.meanTime r)))
    by (by rewrite json_roundtrip_number).
  do 2 f_equal.
  rewrite omap_singleton_Some with (y := BenchOpts.to_value (BenchmarkReport.options r));
    [done|].
  rewrite json_roundtrip_options by done. unfold BenchOpts.to_value. done.
Qed.

(** The row of a report that was written and read back. *)
Lemma shown_saved_report (r : BenchmarkReport.t) :
  shown (json_roundtrip (BenchmarkReport.to_value r)) = Some (saved_mean r).
Proof.
  unfold BenchmarkReport.to_value.
  change (json_roundtrip (VObj ?m)) with
    (VObj (omap (λ p, match p with
                      | VUndefined => None
                      | _ => Some (json_roundtrip p)
                      end) m)).
  unfold shown, get_prop. rewrite lookup_omap.
  rewrite lookup_insert_ne by done. rewrite lookup_insert_eq.
  cbn [mbind option_bind default]. rewrite json_roundtrip_num. unfold saved_mean.
  cbn zeta.
  destruct (PrimFloat.is_nan _ || PrimFloat.is_infinity _); [done|].
  destruct (PrimFloat.is_zero _); done.
Qed.

(** Merging the registry into what was written for a merge with the
    registry changes nothing. *)
Lemma json_entries_idempotent (regs own : gmap string value) :
  json_roundtrip
    (VObj (spread (own_props (json_roundtrip (VObj (spread own regs)))) regs))
  = json_roundtrip (VObj (spread own regs)).
Proof.
  cbn. f_equal. apply map_eq. intros k. unfold spread.
  rewrite !lookup_omap, !lookup_union, !lookup_omap, !lookup_union.
  destruct (regs !! k) as [r|] eqn:Hr; cbn.
  - destruct (own !! k) as [o|]; cbn.
    + assert (r = VUndefined ∨ r ≠ VUndefined) as [->|Hne];
        [destruct r; by (left + right)|done|].
      rewrite (json_entry_defined r Hne). cbn.
      by rewrite (json_entry_defined r Hne).
    + assert (r = VUndefined ∨ r ≠ VUndefined) as [->|Hne];
        [destruct r; by (left + right)|done|].
      rewrite (json_entry_defined r Hne). cbn.
      by rewrite (json_entry_defined r Hne).
  - destruct (own !! k) as [o|]; cbn; [|done].
    assert (o = VUndefined ∨ o ≠ VUndefined) as [->|Hne];
      [destruct o; by (left + right)|done|].
    rewrite (json_entry_defined o Hne). cbn.
    rewrite json_entry_defined by apply json_roundtrip_defined.
    by rewrite json_roundtrip_idempotent.
Qed.



Section StoreFacts.

Context {U : Type}.
Implicit Types (w : World U BenchmarkReport.t) (d : gmap string value).

(** The loop of the table changes nothing. *)
Lemma rows_world (r : gmap string value) w : (rows r w).2 = w.
Proof.
  destruct (decide (map_Forall (λ _ v, is_Some (shown v)) r)) as [H|H].
  - by rewrite (proj1 (rows_spec r w) H).
  - by destruct (proj2 (rows_spec r w) H) as (o & -> & _).
Qed.

Lemma omap_shown_reports (m : gmap string BenchmarkReport.t) :
  omap shown (BenchmarkReport.to_value <$> m)
  = round ∘ BenchmarkReport.meanTime <$> m.
Proof.
  apply map_eq. intros name. rewrite lookup_omap, !lookup_fmap.
  destruct (m !! name) as [r|]; cbn; [apply shown_report|done].
Qed.

(** X12. [reportTable] only reads: whatever its argument and its outcome,
    it leaves the clock, the registry and the disk as they were. With no
    file name it does not read the disk and cannot fail: its table has one
    row per report of the registry, which shows the rounded mean time of
    the report. *)
Theorem reportTable_reads_only filename w :
  (reportTable filename w).2 = w
  ∧ reportTable None w
    = (Ok (round ∘ BenchmarkReport.meanTime <$> reports w), w).
Proof.
  split.
  - destruct filename as [path|].
    + rewrite reportTable_unfold. unfold bind. rewrite read_object_spec.
      destruct (disk w !! path) as [[c|[text|v]]|]; try done.
      destruct (not_an_object v); [done|]. apply rows_world.
    + unfold reportTable, bind, get_reports, ret. apply rows_world.
  - unfold reportTable, bind, get_reports, ret, spread.
    rewrite (right_id_L ∅ (∪)).
    rewrite (proj1 (rows_spec _ w)).
    + by rewrite omap_shown_reports.
    + intros name v. rewrite lookup_fmap.
      destruct (reports w !! name) as [r|]; [|done].
      intros [= <-]. by rewrite shown_report.
Qed.



(** [saveReportsSync], by what the report file holds. *)
Lemma saveReportsSync_spec filename w :
  let path := default "report.json"%string filename in
  let save current :=
    (Ok tt, mkWorld (clock w) (ticks w) (reports w)
              (<[path := Readable (JSON_stringify
                           (VObj (spread (own_props current)
                                    (BenchmarkReport.to_value <$> reports w))))]>
                 (disk w))
              (heap w)) in
  saveReportsSync filename w =
    match disk w !! path with
    | None => save (VObj ∅)
    | Some (Unreadable c) =>
        if bool_decide (c = "ENOENT"%string) then save (VObj ∅)
        else (Throw (SystemError c), w)
    | Some (Readable (NotJson _)) => (Throw SyntaxError, w)
    | Some (Readable (Json v)) =>
        if not_an_object v then (Throw (Error "Report file is not an object"), w)
        else save v
    end.
Proof.
  intros path save. rewrite saveReportsSync_unfold. fold path. cbn zeta.
  unfold bind, try_catch. rewrite read_object_spec.
  destruct (disk w !! path) as [[c|[text|v]]|]; cbn; try done.
  - destruct (bool_decide (c = "ENOENT"%string)) eqn:Hc.
    + apply bool_decide_eq_true in Hc as ->. done.
    + apply bool_decide_eq_false in Hc. rewrite bool_decide_true; [done|congruence].
  - by destruct (not_an_object v).
Qed.

(** X14. Saving is idempotent: after a successful [saveReportsSync], a
    second one succeeds and leaves the report file, and the rest of the
    world, as the first one left them. *)
Theorem saveReportsSync_twice filename w w1 :
  saveReportsSync filename w = (Ok tt, w1) →
  saveReportsSync filename w1 = (Ok tt, w1).
Proof.
  intros Hsave.
  assert (∃ current,
    w1 = mkWorld (clock w) (ticks w) (reports w)
           (<[default "report.json"%string filename :=
                Readable (JSON_stringify
                  (VObj (spread (own_props current)
                           (BenchmarkReport.to_value <$> reports w))))]>
              (disk w))
           (heap w)) as [current ->].
  { revert Hsave. rewrite saveReportsSync_spec. cbn zeta.
    destruct (disk w !! _) as [[c|[text|v]]|]; try done.
    - destruct (bool_decide _); [|done]. intros [= <-]. by exists (VObj ∅).
    - destruct (not_an_object v); [done|]. intros [= <-]. by exists v.
    - intros [= <-]. by exists (VObj ∅). }
  rewrite saveReportsSync_spec. cbn zeta. cbn [disk reports clock ticks heap].
  rewrite lookup_insert_eq. cbn [JSON_stringify]. unfold JSON_stringify.
  change (not_an_object (json_roundtrip (VObj ?m))) with false. cbn iota.
  rewrite json_entries_idempotent. by rewrite insert_insert_eq.
Qed.

(** What a successful [saveReportsSync] leaves in the report file. *)
Lemma saveReportsSync_saved filename w w1 :
  saveReportsSync filename w = (Ok tt, w1) →
  ∃ saved,
    disk w1 !! default "report.json"%string filename
      = Some (Readable (Json (VObj saved)))
    ∧ reports w1 = reports w
    ∧ ∀ name r, reports w !! name = Some r →
        saved !! name = Some (json_roundtrip (BenchmarkReport.to_value r)).
Proof.
  rewrite saveReportsSync_spec. cbn zeta. intros Hsave.
  assert (∃ current,
    w1 = mkWorld (clock w) (ticks w) (reports w)
           (<[default "report.json"%string filename :=
                Readable (JSON_stringify
                  (VObj (spread (own_props current)
                           (BenchmarkReport.to_value <$> reports w))))]>
              (disk w))
           (heap w)) as [current ->].
  { revert Hsave.
    destruct (disk w !! _) as [[c|[text|v]]|]; try done.
    - destruct (bool_decide _); [|done]. intros [= <-]. by exists (VObj ∅).
    - destruct (not_an_object v); [done|]. intros [= <-]. by exists v.
    - intros [= <-]. by exists (VObj ∅). }
  eexists. cbn [disk reports]. rewrite lookup_insert_eq.
  split; [reflexivity|]. split; [done|].
  intros name r Hr. rewrite lookup_omap. unfold spread.
  rewrite lookup_union, lookup_fmap, Hr. cbn.
  by destruct (own_props current !! name).
Qed.

(** X15. A report whose numbers are all finite and not [-0] survives the
    report file: after a successful [saveReportsSync], whatever the file
    held before, reading the file gives an object that holds the report,
    as it is in the registry, under its name. *)
Theorem saved_report_reads_back filename w w1 name r :
  saveReportsSync filename w = (Ok tt, w1) →
  reports w !! name = Some r →
  json_report r = true →
  ∃ saved,
    read_object (default "report.json"%string filename) w1 = (Ok (VObj saved), w1)
    ∧ saved !! name = Some (BenchmarkReport.to_value r).
Proof.
  intros (saved & Hfile & _ & Hsaved)%saveReportsSync_saved Hr Hjson.
  exists saved. rewrite read_object_spec, Hfile. split; [done|].
  rewrite (Hsaved name r Hr). by rewrite json_roundtrip_report.
Qed.

(** X16. The table of a saved registry. After a successful
    [saveReportsSync], a table that [reportTable] shows from the file it
    wrote has, for a report of the registry, the rounded mean time of the
    report when that number is finite and not zero, and 0 otherwise: a mean
    time that is NaN or infinite is written as [null]. *)
Theorem saved_report_row path w w1 tableData w2 name r :
  saveReportsSync (Some path) w = (Ok tt, w1) →
  reportTable (Some path) w1 = (Ok tableData, w2) →
  reports w !! name = Some r →
  tableData !! name = Some (saved_mean r).
Proof.
  intros (saved & Hfile & Hreg & Hsaved)%saveReportsSync_saved Htable Hr.
  cbn in Hfile. revert Htable. rewrite reportTable_unfold. unfold bind.
  rewrite read_object_spec, Hfile. cbn.
  set (merged := saved ∪ _).
  destruct (decide (map_Forall (λ _ v, is_Some (shown v)) merged)) as [Hall|Hbad].
  - rewrite (proj1 (rows_spec merged w1) Hall). intros [= <- _].
    rewrite lookup_omap. unfold merged.
    rewrite lookup_union, (Hsaved name r Hr).
    destruct (spread _ _ !! name); cbn; apply shown_saved_report.
  - destruct (proj2 (rows_spec merged w1) Hbad) as (o & -> & Ho).
    intros [= Heq _]. by destruct (Ho tableData).
Qed.


End StoreFacts.


(** Saving the registry of [stale] twice. *)
Lemma saveReportsSync_stale_twice :
  let w1 := (saveReportsSync None Examples.stale).2 in
  saveReportsSync None w1 = (Ok tt, w1).
Proof.
  cbn zeta. apply (saveReportsSync_twice None Examples.stale). by vm_compute.
Defined.

(** The report [fresh], saved with no report file and read back. *)
Lemma fresh_reads_back :
  let w1 := (saveReportsSync None Examples.unsaved).2 in
  ∃ saved,
    read_object "report.json" w1 = (Ok (VObj saved), w1)
    ∧ saved !! "A"%string = Some (BenchmarkReport.to_value Examples.fresh).
Proof.
  cbn zeta.
  apply (saved_report_reads_back None Examples.unsaved
           (saveReportsSync None Examples.unsaved).2 "A" Examples.fresh).
  - by vm_compute.
  - reflexivity.
  - reflexivity.
Defined.

(** The report [hollow], whose mean time is NaN: the table shows NaN from
    the registry, and 0 from the file the registry was saved to. *)
Lemma hollow_row :
  let w1 := (saveReportsSync (Some "report.json"%string) Examples.unmeasured).2 in
  (reportTable None Examples.unmeasured).1 = Ok {[ "N"%string := nan ]}
  ∧ ∃ tableData,
      (reportTable (Some "report.json"%string) w1).1 = Ok tableData
      ∧ tableData !! "N"%string = Some 0.
Proof.
  cbn zeta. split; [by vm_compute|].
  destruct (reportTable (Some "report.json"%string)
              (saveReportsSync (Some "report.json"%string) Examples.unmeasured).2)
    as [[tableData|e|] w2] eqn:Htable; [|by vm_compute in Htable..].
  exists tableData. split; [reflexivity|].
  apply (saved_report_row "report.json" Examples.unmeasured
           (saveReportsSync (Some "report.json"%string) Examples.unmeasured).2
           tableData w2 "N" Examples.hollow).
  - by vm_compute.
  - exact Htable.
  - reflexivity.
Defined.


(** ** More on the plain engine of [src/index.ts] *)

Section PlainEngine.

Context {U : Type}.
Implicit Types (w : World U IndexTs.BenchmarkReport) (fn : Code U unit).

(** The warm-up loop of the plain engine, entered with [c] calls made. *)
Lemma IndexTs_warmup_inv fuel opts fn start c w c' e w' :
  IndexTs.warmup fuel opts fn start c w = (Ok (c', e), w') →
  (c < c')%nat
  ∧ runs fn (c' - c) (heap w) = (Ok tt, heap w')
  ∧ ticks w' = (ticks w + (c' - c))%nat
  ∧ e = clock w (ticks w + (c' - c) - 1)
  ∧ (e - start <? BenchOpts.warmupTime opts) = false
  ∧ (∀ j, (0 < j < c' - c)%nat →
       (clock w (ticks w + j - 1) - start <? BenchOpts.warmupTime opts) = true)
  ∧ same_stores w w'.
Proof.
  revert c w. induction fuel as [|fuel IH]; intros c w; cbn [IndexTs.warmup];
    [done|].
  unfold bind at 1. destruct (lift fn w) as [[[]|e0|] w1] eqn:Hf; try done.
  apply lift_inv in Hf as (Hf & Ht1 & Hs1).
  unfold bind, now. cbn [clock ticks].
  destruct (clock w1 (ticks w1) - start <? BenchOpts.warmupTime opts) eqn:Hcond.
  - intros (Hlt & Hruns & Ht & -> & Hexit & Hgo & Hs)%IH.
    cbn [clock ticks heap] in *. destruct Hs1 as (Hc1 & Hr1 & Hd1).
    split; [lia|]. replace (c' - c)%nat with (S (c' - S c)) by lia.
    split; [cbn [runs]; by rewrite Hf|]. split; [lia|].
    rewrite Hc1 in *. rewrite Ht1 in *.
    split; [f_equal; lia|]. split; [rewrite <- Hexit; do 3 f_equal; lia|].
    split.
    + intros [|[|j]] Hj; [lia| |].
      * replace (ticks w + 1 - 1)%nat with (ticks w) by lia. done.
      * replace (ticks w + S (S j) - 1)%nat with (S (ticks w) + S j - 1)%nat by lia.
        apply Hgo. lia.
    + destruct Hs as (? & ? & ?). cbn in *. repeat split; congruence.
  - unfold ret. intros [= <- <- <-]. cbn [clock ticks heap].
    destruct Hs1 as (Hc1 & Hr1 & Hd1).
    replace (S c - c)%nat with 1%nat by lia. split; [lia|].
    split; [cbn [runs]; by rewrite Hf|]. split; [lia|].
    rewrite Hc1 in *. rewrite Ht1 in *.
    replace (ticks w + 1 - 1)%nat with (ticks w) by lia.
    split; [done|]. split; [done|]. split; [intros j Hj; lia|].
    repeat split; cbn; congruence.
Qed.


(** The two loops change the heap of the workload and the number of
    readings only, however they end. *)
Lemma IndexTs_warmup_same_stores fuel opts fn start c w r w' :
  IndexTs.warmup fuel opts fn start c w = (r, w') → same_stores w w'.
Proof.
  revert c w. induction fuel as [|fuel IH]; intros c w; cbn [IndexTs.warmup].
  - by intros [= <- <-].
  - unfold bind at 1. destruct (lift fn w) as [[[]|e0|] w1] eqn:Hf;
      [|intros [= <- <-]; by eapply lift_same_stores..].
    apply lift_same_stores in Hf. unfold bind, now.
    destruct (clock w1 (ticks w1) - start <? BenchOpts.warmupTime opts).
    + intros Hk%IH. eapply same_stores_trans; [exact Hf|]. exact Hk.
    + by intros [= <- <-].
Qed.

Lemma IndexTs_sampling_same_stores fuel fn samples i w r w' :
  IndexTs.sampling fuel fn samples i w = (r, w') → same_stores w w'.
Proof.
  revert i w. induction fuel as [|fuel IH]; intros i w; cbn;
    destruct (of_nat i <? samples); unfold ret, no_answer;
    try by intros [= <- <-].
  unfold bind. destruct (lift fn w) as [[[]|e0|] w1] eqn:Hf;
    [|intros [= <- <-]; by eapply lift_same_stores..].
  apply lift_same_stores in Hf. intros Hk%IH. by eapply same_stores_trans.
Qed.

(** X18. The warm-up of the plain engine of [src/index.ts]. When it ends it
    has called the workload [c] times, at least once, and read the clock
    after each call: it stops at the first reading that is not less than
    [options.warmupTime] after the reading taken before the loop, however
    few calls that took. *)
Theorem IndexTs_warmup_until_budget fuel opts fn start w c e w' :
  IndexTs.warmup fuel opts fn start 0 w = (Ok (c, e), w') →
  (1 ≤ c)%nat
  ∧ runs fn c (heap w) = (Ok tt, heap w')
  ∧ ticks w' = (ticks w + c)%nat
  ∧ e = clock w (ticks w + c - 1)
  ∧ (e - start <? BenchOpts.warmupTime opts) = false
  ∧ (∀ j, (0 < j < c)%nat →
       (clock w (ticks w + j - 1) - start <? BenchOpts.warmupTime opts) = true).
Proof.
  intros (Hc & Hruns & Ht & He & Hexit & Hgo & _)%IndexTs_warmup_inv.
  rewrite Nat.sub_0_r in *. repeat split; try done; lia.
Qed.


(** X20. The plain engine of [src/index.ts] touches one report at most.
    Whatever its outcome, [bench] leaves the disk as it was, and every
    report of the registry but the one under the name of the run; a run
    that does not succeed, or that has no name, leaves the whole registry
    as it was. *)
Theorem IndexTs_bench_one_report fuel options fn w :
  let run := IndexTs.bench fuel options fn w in
  disk run.2 = disk w
  ∧ (∀ name, BenchOpts.name (resolve options) ≠ Some name →
       reports run.2 !! name = reports w !! name)
  ∧ (run.1 ≠ Ok tt ∨ BenchOpts.name (resolve options) = None →
       reports run.2 = reports w).
Proof.
  cbn zeta. destruct (IndexTs.bench fuel options fn w) as [r w'] eqn:Hrun.
  cbn [fst snd]. revert Hrun. unfold IndexTs.bench, bind, now. cbn [fst snd].
  destruct (IndexTs.warmup _ _ _ _ _ _) as [[[c e]|?|] w1] eqn:Hw;
    apply IndexTs_warmup_same_stores in Hw as (_ & Hr1 & Hd1);
    cbn [reports disk] in Hr1, Hd1.
  2,3: intros [= <- <-]; split; [|split]; intros; congruence.
  destruct (IndexTs.sampling _ _ _ _ _) as [[[]|?|] w2] eqn:Hs;
    apply IndexTs_sampling_same_stores in Hs as (_ & Hr2 & Hd2);
    cbn [reports disk] in Hr2, Hd2;
    [|intros [= <- <-]; split; [|split]; intros; congruence..].
  destruct (BenchOpts.name (resolve options)) as [n|]; cbn; intros [= <- <-]; cbn.
  - split; [congruence|]. split; [|by intros [|]].
    intros name Hname. rewrite lookup_insert_ne by congruence. congruence.
  - split; [congruence|]. split; intros; congruence.
Qed.

End PlainEngine.

(** The warm-up of the plain engine under the options [quick], which ask
    for no warm-up time: one call. *)
Lemma IndexTs_warmup_quick :
  let w := mkWorld (R:=IndexTs.BenchmarkReport) Examples.ticking 1 ∅ ∅ 0%nat in
  (IndexTs.warmup 10 (resolve Examples.quick) Examples.noop 0 0 w).1 = Ok (1%nat, 1)
  ∧ (1 - 0 <? BenchOpts.warmupTime (resolve Examples.quick)) = false.
Proof.
  cbn zeta. split; [reflexivity|].
  assert (IndexTs.warmup 10 (resolve Examples.quick) Examples.noop 0 0
            (mkWorld Examples.ticking 1 ∅ ∅ 0%nat)
          = (Ok (1%nat, 1), mkWorld Examples.ticking 2 ∅ ∅ 1%nat)) as Hrun
    by reflexivity.
  destruct (IndexTs_warmup_until_budget _ _ _ _ _ _ _ _ Hrun)
    as (_ & _ & _ & _ & Hexit & _).
  exact Hexit.
Defined.

